(** * A shallow embedding of [main.py] of the farm simulation game

    The game state of [main.py] is a Python object mutated in place by every
    action.  It is modelled here as an immutable record threaded through the
    functions; a function that mutates it returns the new state.  Python
    exceptions that the code can raise are modelled as the [Raise] result of
    a small error type.  Dictionaries become stdpp's [gmap], the livestock
    list a Rocq list, and Python's unbounded integers [Z]. *)

From Stdlib Require Import ZArith Lia List.
From stdpp Require Import base gmap strings list.
Import ListNotations.

Local Open Scope string_scope.
Local Open Scope Z_scope.

(** ** Python exceptions and results *)

Inductive exc :=
| AttributeError   (* attribute access on [None] *)
| TypeError        (* arithmetic with [None] *)
| IndexError       (* list index out of range *)
| KeyError.        (* missing dictionary key *)

Inductive res (A : Type) :=
| Ok (a : A)
| Raise (e : exc).
Arguments Ok {A} a.
Arguments Raise {A} e.

Definition res_bind {A B} (m : res A) (k : A -> res B) : res B :=
  match m with
  | Ok a => k a
  | Raise e => Raise e
  end.

Notation "'let*' x ':=' m 'in' k" := (res_bind m (fun x => k))
  (at level 200, x name, m at level 100, k at level 200).

(** ** Catalog: [CropType], [LivestockType] *)

Record CropType := mkCropType {
  crop_name : string;
  grow_days : Z
}.

Record LivestockType := mkLivestockType {
  lt_name : string;
  product : string
}.

(** ** [FieldPlot] with its two optional fields *)

Record FieldPlot := mkFieldPlot {
  crop : option CropType;
  planted_day : option Z
}.

Definition empty_plot : FieldPlot := mkFieldPlot None None.

(** [FieldPlot.is_ready] *)
Definition is_ready (plot : FieldPlot) (current_day : Z) : bool :=
  match crop plot, planted_day plot with
  | Some c, Some d => grow_days c <=? current_day - d
  | _, _ => false
  end.

(** ** [Livestock] *)

Record Livestock := mkLivestock {
  livestock_type : LivestockType;
  hunger : Z
}.

(** [Livestock.feed]: the unit after the call, and the returned product. *)
Definition feed (a : Livestock) : Livestock * string :=
  (mkLivestock (livestock_type a) 0, product (livestock_type a)).

(** [Livestock.pass_day] *)
Definition pass_day (a : Livestock) : Livestock :=
  mkLivestock (livestock_type a) (hunger a + 1).

(** ** Module-level constants *)

Definition CROPS : list CropType :=
  [mkCropType "にんじん" 2; mkCropType "じゃがいも" 3; mkCropType "かぼちゃ" 4].

Definition LIVESTOCK_TYPES : list LivestockType :=
  [mkLivestockType "ニワトリ" "たまご"; mkLivestockType "ウシ" "ミルク"].

Definition chicken : LivestockType := mkLivestockType "ニワトリ" "たまご".
Definition cow : LivestockType := mkLivestockType "ウシ" "ミルク".

Definition GRID_WIDTH : Z := 8.
Definition GRID_HEIGHT : Z := 6.
Definition FIELD_POSITIONS : list (Z * Z) := [(2, 1); (3, 1); (2, 2); (3, 2)].
Definition BARN_POSITION : Z * Z := (6, 4).

(** The feed item of the inventory. *)
Definition FEED : string := "エサ".

(** ** [GameState] *)

Record GameState := mkGameState {
  day : Z;
  day_limit : Z;
  actions_per_day : Z;
  player_pos : Z * Z;
  fields : gmap (Z * Z) FieldPlot;
  livestock : list Livestock;
  inventory : gmap string Z;
  goal : gmap string Z
}.

Definition set_day (st : GameState) (d : Z) : GameState :=
  mkGameState d (day_limit st) (actions_per_day st) (player_pos st)
    (fields st) (livestock st) (inventory st) (goal st).
Definition set_player_pos (st : GameState) (p : Z * Z) : GameState :=
  mkGameState (day st) (day_limit st) (actions_per_day st) p
    (fields st) (livestock st) (inventory st) (goal st).
Definition set_fields (st : GameState) (f : gmap (Z * Z) FieldPlot) : GameState :=
  mkGameState (day st) (day_limit st) (actions_per_day st) (player_pos st)
    f (livestock st) (inventory st) (goal st).
Definition set_livestock (st : GameState) (l : list Livestock) : GameState :=
  mkGameState (day st) (day_limit st) (actions_per_day st) (player_pos st)
    (fields st) l (inventory st) (goal st).
Definition set_inventory (st : GameState) (inv : gmap string Z) : GameState :=
  mkGameState (day st) (day_limit st) (actions_per_day st) (player_pos st)
    (fields st) (livestock st) inv (goal st).

(** [GameState.__init__] *)
Definition initial_state : GameState :=
  mkGameState 1 10 3 (0, 0)
    (list_to_map ((fun pos => (pos, empty_plot)) <$> FIELD_POSITIONS))
    [mkLivestock chicken 0; mkLivestock chicken 0; mkLivestock cow 0]
    (list_to_map [("たまご", 0); ("ミルク", 0); ("にんじん", 0);
                  ("じゃがいも", 0); ("かぼちゃ", 0); ("エサ", 6)])
    (list_to_map [("にんじん", 5); ("じゃがいも", 3); ("たまご", 4); ("ミルク", 2)]).

(** [d.get(k, default)] *)
Definition dict_get {K} `{EqDecision K, Countable K}
    (m : gmap K Z) (k : K) (dflt : Z) : Z :=
  match m !! k with
  | Some v => v
  | None => dflt
  end.

(** [GameState.goal_met]:
    [all(inventory.get(item, 0) >= amount for item, amount in goal.items())] *)
Definition goal_met (st : GameState) : bool :=
  forallb (fun '(item, amount) => amount <=? dict_get (inventory st) item 0)
    (map_to_list (goal st)).

(** ** [print_status]: the status string of each plot

    [print_status] writes, for every plot, one of three strings; the
    constructor records which, with the values interpolated into it.  The
    subtraction [state.day - plot.planted_day] raises [TypeError] when
    [planted_day] is [None]. *)

Inductive PlotStatus :=
| Vacant                              (* "空き" *)
| HarvestOK (name : string)           (* f"{name} (収穫OK)" *)
| Remaining (name : string) (r : Z).  (* f"{name} (あと{r}日)" *)

Definition plot_status (plot : FieldPlot) (current_day : Z) : res PlotStatus :=
  match crop plot with
  | None => Ok Vacant
  | Some c =>
      if is_ready plot current_day then Ok (HarvestOK (crop_name c))
      else match planted_day plot with
           | None => Raise TypeError
           | Some d => Ok (Remaining (crop_name c) (grow_days c - (current_day - d)))
           end
  end.

Fixpoint res_mapM {A B} (f : A -> res B) (l : list A) : res (list B) :=
  match l with
  | [] => Ok []
  | x :: l' => let* y := f x in let* ys := res_mapM f l' in Ok (y :: ys)
  end.

(** The plot part of [print_status]: the plot lines in dictionary order. *)
Definition print_status (st : GameState) : res (list ((Z * Z) * PlotStatus)) :=
  res_mapM (fun '(pos, plot) =>
              let* s := plot_status plot (day st) in Ok (pos, s))
    (map_to_list (fields st)).

(** ** [move_player]

    The input loop re-prompts until one of W/A/S/D is entered; the accepted
    key is the input of the model. *)

Inductive Key := KeyW | KeyA | KeyS | KeyD.

Definition directions (k : Key) : Z * Z :=
  match k with
  | KeyW => (0, -1)
  | KeyA => (-1, 0)
  | KeyS => (0, 1)
  | KeyD => (1, 0)
  end.

Definition move_player (st : GameState) (k : Key) : GameState :=
  let '(dx, dy) := directions k in
  let new_x := Z.max 0 (Z.min (GRID_WIDTH - 1) (fst (player_pos st) + dx)) in
  let new_y := Z.max 0 (Z.min (GRID_HEIGHT - 1) (snd (player_pos st) + dy)) in
  set_player_pos st (new_x, new_y).

(** ** [plant_crop] and [harvest]

    Both receive the plot object stored in [state.fields]; mutating it
    mutates the dictionary entry, so the model writes the plot back at its
    position [pos].  [crop_index] is the index [prompt_choice] returns. *)

Definition plant_crop (st : GameState) (pos : Z * Z) (crop_index : nat)
    : res (GameState * string) :=
  match nth_error CROPS crop_index with
  | None => Raise IndexError
  | Some c =>
      Ok (set_fields st (<[pos := mkFieldPlot (Some c) (Some (day st))]> (fields st)),
          crop_name c)
  end.

Definition harvest (st : GameState) (pos : Z * Z) (plot : FieldPlot)
    : res (GameState * string) :=
  match crop plot with
  | None => Raise AttributeError
  | Some c =>
      let crop_name := crop_name c in
      let inv := <[crop_name := dict_get (inventory st) crop_name 0 + 1]> (inventory st) in
      Ok (set_fields (set_inventory st inv) (<[pos := empty_plot]> (fields st)),
          crop_name)
  end.

(** ** [feed_animals]

    [feed_loop] is the [for animal in state.livestock] loop: it returns the
    livestock list after the loop (fed units replaced), the inventory and the
    counter [fed].  [state.inventory["エサ"] -= 1] raises [KeyError] when the
    key is absent. *)

Fixpoint feed_loop (animals : list Livestock) (inv : gmap string Z) (fed : Z)
    : res (list Livestock * gmap string Z * Z) :=
  match animals with
  | [] => Ok ([], inv, fed)
  | animal :: rest =>
      if dict_get inv FEED 0 <=? 0 then Ok (animals, inv, fed)
      else
        let '(animal', p) := feed animal in
        let inv1 := <[p := dict_get inv p 0 + 1]> inv in
        match inv1 !! FEED with
        | None => Raise KeyError
        | Some f =>
            let inv2 := <[FEED := f - 1]> inv1 in
            let* r := feed_loop rest inv2 (fed + 1) in
            let '(rest', inv3, fed3) := r in
            Ok (animal' :: rest', inv3, fed3)
        end
  end.

(** What [feed_animals] prints at the end. *)
Inductive FeedMsg :=
| NotEnoughFeed          (* "エサが足りません。" and early return *)
| FedCount (fed : Z).    (* the loop ran; [fed] units were fed *)

Definition feed_animals (st : GameState) : res (GameState * FeedMsg) :=
  if dict_get (inventory st) FEED 0 <=? 0 then Ok (st, NotEnoughFeed)
  else
    let* r := feed_loop (livestock st) (inventory st) 0 in
    let '(ls, inv, fed) := r in
    Ok (set_inventory (set_livestock st ls) inv, FedCount fed).

(** ** [interact]

    The message records what [interact] prints; the crop index is the answer
    to the prompt of [plant_crop], used only when that prompt is shown. *)

Inductive InteractMsg :=
| Planted (name : string)
| Harvested (name : string)
| StillGrowing (name : string) (remaining : Z)
| Fed (m : FeedMsg)
| NothingHere.

Definition interact (st : GameState) (crop_index : nat) : res (GameState * InteractMsg) :=
  match fields st !! player_pos st with
  | Some plot =>
      match crop plot with
      | None =>
          let* r := plant_crop st (player_pos st) crop_index in
          Ok (fst r, Planted (snd r))
      | Some c =>
          if is_ready plot (day st) then
            let* r := harvest st (player_pos st) plot in
            Ok (fst r, Harvested (snd r))
          else
            match planted_day plot with
            | None => Raise TypeError
            | Some d => Ok (st, StillGrowing (crop_name c) (grow_days c - (day st - d)))
            end
      end
  | None =>
      if decide (player_pos st = BARN_POSITION) then
        let* r := feed_animals st in Ok (fst r, Fed (snd r))
      else Ok (st, NothingHere)
  end.

(** ** [end_day] *)
Definition end_day (st : GameState) : GameState :=
  set_day (set_livestock st (map pass_day (livestock st))) (day st + 1).

(** ** [main] as a state machine

    One step is one test of a [while] condition of [main] together with the
    body it guards.  [OuterTest] is [while state.day <= state.day_limit];
    [InnerTest actions_left] is [while actions_left > 0].  Each menu choice
    consumes one input; [prompt_choice] re-prompts until the index is valid,
    so the input is the accepted choice together with its own follow-up
    answer (the W/A/S/D key of a move, the crop index of a planting). *)

Inductive Choice :=
| CMove (k : Key)               (* 0: 移動する *)
| CInteract (crop_index : nat)  (* 1: その場で作業する *)
| CStatus                       (* 2: ステータス確認 *)
| CEndActions.                  (* 3: 行動を終了する *)

(** The body of the inner loop up to the goal test: the new state and the
    new [actions_left]. *)
Definition do_choice (st : GameState) (actions_left : Z) (c : Choice)
    : res (GameState * Z) :=
  match c with
  | CMove k => Ok (move_player st k, actions_left - 1)
  | CInteract i => let* r := interact st i in Ok (fst r, actions_left - 1)
  | CStatus => let* _ := print_status st in Ok (st, actions_left)
  | CEndActions => Ok (st, 0)
  end.

Inductive Phase :=
| OuterTest
| InnerTest (actions_left : Z).

(** How [main] ends. *)
Inductive Outcome :=
| GoalReached (st : GameState)   (* "目標を達成しました！..." and return *)
| GoalAtLimit (st : GameState)   (* "制限日数ギリギリで目標達成！..." *)
| TimeUp (st : GameState)        (* "時間切れです。..." *)
| Crash (e : exc).               (* an uncaught exception *)

Inductive Next :=
| Continue (st : GameState) (ph : Phase) (inputs : list Choice)
| Stop (o : Outcome)
| AwaitInput (st : GameState) (actions_left : Z).

Definition step (st : GameState) (ph : Phase) (inputs : list Choice) : Next :=
  match ph with
  | OuterTest =>
      if day st <=? day_limit st then Continue st (InnerTest (actions_per_day st)) inputs
      else Stop (if goal_met st then GoalAtLimit st else TimeUp st)
  | InnerTest actions_left =>
      if 0 <? actions_left then
        match inputs with
        | [] => AwaitInput st actions_left
        | c :: rest =>
            match do_choice st actions_left c with
            | Raise e => Stop (Crash e)
            | Ok (st', al') =>
                if goal_met st' then Stop (GoalReached st')
                else Continue st' (InnerTest al') rest
            end
        end
      else Continue (end_day st) OuterTest inputs
  end.

(** [fuel] bounds the number of steps. *)
Fixpoint run (fuel : nat) (st : GameState) (ph : Phase) (inputs : list Choice) : Next :=
  match fuel with
  | O => Continue st ph inputs
  | S n =>
      match step st ph inputs with
      | Continue st' ph' inputs' => run n st' ph' inputs'
      | r => r
      end
  end.

(** After the loops: on the time-up ending [main] also calls [print_status],
    which may raise. *)
Definition main (fuel : nat) (inputs : list Choice) : Next :=
  match run fuel initial_state OuterTest inputs with
  | Stop (TimeUp st) =>
      match print_status st with
      | Raise e => Stop (Crash e)
      | Ok _ => Stop (TimeUp st)
      end
  | r => r
  end.

(** ** Auxiliary notions used in the statements *)

(** The grid membership test of a position. *)
Definition in_grid (p : Z * Z) : bool :=
  (0 <=? fst p) && (fst p <=? GRID_WIDTH - 1) &&
  (0 <=? snd p) && (snd p <=? GRID_HEIGHT - 1).

(** Clamping of a value to [[lo, hi]], as the spec words it. *)
Definition clamp (lo hi v : Z) : Z :=
  if v <? lo then lo else if hi <? v then hi else v.

(** The number of units of [l] whose product is [p]. *)
Definition count_prod (p : string) (l : list Livestock) : nat :=
  length (List.filter (fun a => bool_decide (product (livestock_type a) = p)) l).

(** The number of units a feeding round reaches: the feed stock, capped by
    the number of units. *)
Definition fed_count (inv : gmap string Z) (ls : list Livestock) : nat :=
  Nat.min (Z.to_nat (dict_get inv FEED 0)) (length ls).

(** The state of the livestock after the first [k] units are fed. *)
Definition feed_prefix (k : nat) (ls : list Livestock) : list Livestock :=
  map (fun a => fst (feed a)) (firstn k ls) ++ skipn k ls.

(** [fmap] of the result type. *)
Definition res_map {A B} (f : A -> B) (m : res A) : res B :=
  let* a := m in Ok (f a).

(** The carrot of [CROPS]. *)
Definition carrot : CropType := mkCropType "にんじん" 2.

(** The state of the game once a carrot has been planted at [(2, 1)] on
    day 1 and the player stands on it. *)
Definition carrot_plot : FieldPlot := mkFieldPlot (Some carrot) (Some 1).
Definition carrot_state : GameState :=
  set_player_pos (set_fields initial_state (<[(2, 1) := carrot_plot]> (fields initial_state)))
    (2, 1).

(** The initial state with the feed used up and the player at the barn. *)
Definition barn_no_feed : GameState :=
  set_player_pos (set_inventory initial_state (<[FEED := 0]> (inventory initial_state)))
    BARN_POSITION.

(** Where the loop of [main] can be, for a day limit [L]: inside a day only
    while [day <= L]; at the outer test with [day <= L + 1]; ended by the
    day limit only at [day = L + 1]. *)
Definition loop_ok (L : Z) (r : Next) : Prop :=
  match r with
  | Continue st (InnerTest _) _ => day_limit st = L /\ day st <= L
  | AwaitInput st _ => day_limit st = L /\ day st <= L
  | Continue st OuterTest _ => day_limit st = L /\ day st <= L + 1
  | Stop (TimeUp st) | Stop (GoalAtLimit st) => day st = L + 1
  | Stop _ => True
  end.

(** The initial state on day 10, the last day. *)
Definition last_day_state : GameState := set_day initial_state 10.


(** ** [render_map]

    The cell [render_map] prints for a position, in the order of its tests:
    the player, a field, the barn, a path.  The map is the list of rows
    [y = 0 .. GRID_HEIGHT-1], each the list of cells [x = 0 .. GRID_WIDTH-1]
    (the row is printed joined by spaces). *)

Definition render_cell (st : GameState) (pos : Z * Z) : string :=
  if decide (pos = player_pos st) then "@"
  else if decide (pos ∈ dom (fields st)) then "F"
  else if decide (pos = BARN_POSITION) then "B"
  else ".".

Definition render_map (st : GameState) : list (list string) :=
  (fun y => (fun x => render_cell st (x, y)) <$> seqZ 0 GRID_WIDTH) <$> seqZ 0 GRID_HEIGHT.

(** ** Invariants of the states [main] reaches *)

(** A plot has both [crop] and [planted_day] or neither, and was planted
    no later than day [d]. *)
Definition plot_ok (d : Z) (plot : FieldPlot) : Prop :=
  match crop plot, planted_day plot with
  | None, None => True
  | Some _, Some pd => pd <= d
  | _, _ => False
  end.

(** The types of the livestock [GameState.__init__] creates. *)
Definition initial_types : list LivestockType := [chicken; chicken; cow].

Definition wf (st : GameState) : Prop :=
  map_Forall (fun _ p => plot_ok (day st) p) (fields st) /\
  map_Forall (fun _ v => 0 <= v) (inventory st) /\
  in_grid (player_pos st) = true /\
  dom (fields st) = list_to_set FIELD_POSITIONS /\
  map livestock_type (livestock st) = initial_types /\
  Forall (fun a => 0 <= hunger a) (livestock st).

(** A menu input the prompts of [main] can return: a crop index is one of
    the [CROPS]. *)
Definition valid_choice (c : Choice) : Prop :=
  match c with
  | CInteract i => (i < length CROPS)%nat
  | _ => True
  end.

(** The state a configuration of [main] holds, unless it crashed. *)
Definition reached (r : Next) : option GameState :=
  match r with
  | Continue st _ _ => Some st
  | AwaitInput st _ => Some st
  | Stop (GoalReached st) | Stop (GoalAtLimit st) | Stop (TimeUp st) => Some st
  | Stop (Crash _) => None
  end.

(** Inputs consumed so far, against the days begun: every day that has
    begun and had an action consumed at least one input. *)
Definition inputs_ok (total : nat) (r : Next) : Prop :=
  match r with
  | Continue st OuterTest rest =>
      actions_per_day st = 3 /\ day st - 1 <= Z.of_nat total - Z.of_nat (length rest)
  | Continue st (InnerTest al) rest =>
      actions_per_day st = 3 /\ al <= 3 /\
      day st - 1 + (if al <? 3 then 1 else 0) <= Z.of_nat total - Z.of_nat (length rest)
  | AwaitInput st al =>
      actions_per_day st = 3 /\ al <= 3 /\
      day st - 1 + (if al <? 3 then 1 else 0) <= Z.of_nat total
  | Stop (TimeUp st) | Stop (GoalAtLimit st) => day st - 1 <= Z.of_nat total
  | Stop _ => True
  end.

(** The key of the opposite direction. *)
Definition opposite (k : Key) : Key :=
  match k with
  | KeyW => KeyS
  | KeyA => KeyD
  | KeyS => KeyW
  | KeyD => KeyA
  end.

(** A short session: two moves right and one down reach the field at
    [(2, 1)] on day 1; on day 2 a carrot is planted there and the day's
    actions are ended. *)
Definition demo_inputs : list Choice :=
  [CMove KeyD; CMove KeyD; CMove KeyS; CInteract 0; CEndActions].

(** Ten days each ended at once. *)
Definition ten_days : list Choice := repeat CEndActions 10.

(** The initial state with the player on the field at [(2, 1)]. *)
Definition field_state : GameState := set_player_pos initial_state (2, 1).

(** ** Proofs *)

(** ** Readiness and remaining days *)

(** C4: [is_ready] is false on a plot with no crop; on an occupied plot it
    is true exactly when [current_day - planted_day >= grow_days], so a crop
    planted on day [d] with [grow_days g] is not ready before [d + g] and is
    ready from [d + g] on. *)
Theorem is_ready_spec (plot : FieldPlot) (current_day : Z) :
  (crop plot = None -> is_ready plot current_day = false) /\
  (forall c d, crop plot = Some c -> planted_day plot = Some d ->
     (is_ready plot current_day = true <-> current_day - d >= grow_days c) /\
     (current_day < d + grow_days c -> is_ready plot current_day = false) /\
     (current_day >= d + grow_days c -> is_ready plot current_day = true)).
Proof.
  unfold is_ready. split.
  - intros ->. reflexivity.
  - intros c d -> ->. repeat split.
    + intros H. apply Z.leb_le in H. lia.
    + intros H. apply Z.leb_le. lia.
    + intros H. apply Z.leb_gt. lia.
    + intros H. apply Z.leb_le. lia.
Qed.

(** C5: on an occupied plot that is not ready, both [print_status] and
    [interact] show [grow_days - (day - planted_day)] remaining days; that
    value is at least 1, and one day later, if the plot is still not ready,
    it is smaller by exactly 1. *)
Theorem remaining_days_spec (plot : FieldPlot) (c : CropType) (d cur : Z) :
  crop plot = Some c -> planted_day plot = Some d -> is_ready plot cur = false ->
  plot_status plot cur = Ok (Remaining (crop_name c) (grow_days c - (cur - d))) /\
  (forall st i, fields st !! player_pos st = Some plot -> day st = cur ->
     interact st i = Ok (st, StillGrowing (crop_name c) (grow_days c - (cur - d)))) /\
  1 <= grow_days c - (cur - d) /\
  (is_ready plot (cur + 1) = false ->
     plot_status plot (cur + 1) =
       Ok (Remaining (crop_name c) (grow_days c - (cur - d) - 1))).
Proof.
  intros Hc Hd Hr.
  pose proof Hr as Hr'. unfold is_ready in Hr'. rewrite Hc, Hd in Hr'.
  apply Z.leb_gt in Hr'.
  unfold plot_status. rewrite Hc, Hr, Hd. repeat split.
  - intros st i Hf Hday. unfold interact. rewrite Hf, Hc, Hday, Hr, Hd. reflexivity.
  - lia.
  - intros Hr1. rewrite Hr1. do 2 f_equal. lia.
Qed.

(** ** The goal test *)

Lemma goal_met_forall (st : GameState) :
  goal_met st = true <->
  forall item amount, goal st !! item = Some amount ->
    amount <= dict_get (inventory st) item 0.
Proof.
  unfold goal_met. rewrite forallb_forall. split.
  - intros H item amount Hg.
    apply elem_of_map_to_list, list_elem_of_In in Hg.
    apply H in Hg. by apply Z.leb_le in Hg.
  - intros H [item amount] Hin.
    apply list_elem_of_In, elem_of_map_to_list in Hin.
    apply Z.leb_le. by apply H.
Qed.

(** C6: [goal_met] holds exactly when every [(item, threshold)] of the goal
    has [inventory.get(item, 0) >= threshold]; an inventory that agrees on
    the goal's items (missing items counting as 0) gives the same answer,
    whatever it holds for other items. *)
Theorem goal_met_spec (st : GameState) :
  (goal_met st = true <->
   forall item amount, goal st !! item = Some amount ->
     dict_get (inventory st) item 0 >= amount) /\
  (forall inv' : gmap string Z,
     (forall item, item ∈ dom (goal st) ->
        dict_get inv' item 0 = dict_get (inventory st) item 0) ->
     goal_met (set_inventory st inv') = goal_met st).
Proof.
  split.
  - rewrite goal_met_forall. split; intros H item amount Hg; apply H in Hg; lia.
  - intros inv' Hagree.
    apply eq_true_iff_eq. rewrite !goal_met_forall. simpl.
    split; intros H item amount Hg;
      (assert (item ∈ dom (goal st)) as Hd by (apply elem_of_dom; eauto));
      apply Hagree in Hd; apply H in Hg; lia.
Qed.

(** ** Movement *)

Lemma clamp_max_min (lo hi v : Z) :
  lo <= hi -> Z.max lo (Z.min hi v) = clamp lo hi v.
Proof.
  intros Hle. unfold clamp.
  destruct (Z.ltb_spec v lo); [lia|].
  destruct (Z.ltb_spec hi v); lia.
Qed.

Lemma move_player_pos (st : GameState) (k : Key) :
  player_pos (move_player st k) =
    (clamp 0 (GRID_WIDTH - 1) (fst (player_pos st) + fst (directions k)),
     clamp 0 (GRID_HEIGHT - 1) (snd (player_pos st) + snd (directions k))).
Proof.
  unfold move_player. destruct (directions k) as [dx dy] eqn:E. simpl.
  rewrite !clamp_max_min; unfold GRID_WIDTH, GRID_HEIGHT; try lia. reflexivity.
Qed.

Lemma clamp_bounds (lo hi v : Z) : lo <= hi -> lo <= clamp lo hi v <= hi.
Proof.
  intros Hle. unfold clamp.
  destruct (Z.ltb_spec v lo); [lia|].
  destruct (Z.ltb_spec hi v); lia.
Qed.

Lemma move_player_in_grid (st : GameState) (k : Key) :
  in_grid (player_pos (move_player st k)) = true.
Proof.
  rewrite move_player_pos. unfold in_grid. simpl.
  pose proof (clamp_bounds 0 (GRID_WIDTH - 1) (fst (player_pos st) + fst (directions k))).
  pose proof (clamp_bounds 0 (GRID_HEIGHT - 1) (snd (player_pos st) + snd (directions k))).
  unfold GRID_WIDTH, GRID_HEIGHT in *.
  repeat rewrite andb_true_iff. rewrite !Z.leb_le. lia.
Qed.

(** C7: from a position inside the grid, a move by any of the four unit
    vectors gives the old position plus the vector, clamped on each axis to
    [[0, GRID_WIDTH-1]] and [[0, GRID_HEIGHT-1]]; the move action never
    raises and leaves the player inside the grid; five moves Left from
    [(0,0)] leave the player at [(0,0)] after each move. *)
Theorem move_player_spec (st : GameState) (k : Key) (actions_left : Z) :
  in_grid (player_pos st) = true ->
  directions k ∈ [(0, -1); (-1, 0); (0, 1); (1, 0)] /\
  player_pos (move_player st k) =
    (clamp 0 (GRID_WIDTH - 1) (fst (player_pos st) + fst (directions k)),
     clamp 0 (GRID_HEIGHT - 1) (snd (player_pos st) + snd (directions k))) /\
  do_choice st actions_left (CMove k) = Ok (move_player st k, actions_left - 1) /\
  in_grid (player_pos (move_player st k)) = true /\
  (player_pos st = (0, 0) ->
   forall n,
     player_pos (Nat.iter n (fun s => move_player s KeyA) st) = (0, 0)).
Proof.
  intros _. split; [destruct k; simpl; set_solver|].
  split; [apply move_player_pos|].
  split; [reflexivity|].
  split; [apply move_player_in_grid|].
  intros H0 n. induction n as [|n IH]; [exact H0|].
  rewrite Nat.iter_succ, move_player_pos, IH. reflexivity.
Qed.

(** ** Feeding *)

Lemma dict_get_insert_eq {K} `{EqDecision K, Countable K}
    (m : gmap K Z) (k : K) (v d : Z) :
  dict_get (<[k := v]> m) k d = v.
Proof. unfold dict_get. by rewrite lookup_insert_eq. Qed.

Lemma dict_get_insert_ne {K} `{EqDecision K, Countable K}
    (m : gmap K Z) (k k' : K) (v d : Z) :
  k <> k' -> dict_get (<[k := v]> m) k' d = dict_get m k' d.
Proof. intros Hne. unfold dict_get. by rewrite lookup_insert_ne. Qed.

Lemma feed_loop_spec (ls : list Livestock) :
  Forall (fun a => product (livestock_type a) <> FEED) ls ->
  forall (inv : gmap string Z) (fed : Z),
  0 <= dict_get inv FEED 0 ->
  exists inv',
    feed_loop ls inv fed =
      Ok (feed_prefix (fed_count inv ls) ls, inv', fed + Z.of_nat (fed_count inv ls)) /\
    dict_get inv' FEED 0 = dict_get inv FEED 0 - Z.of_nat (fed_count inv ls) /\
    (forall p, p <> FEED ->
       dict_get inv' p 0 =
         dict_get inv p 0 + Z.of_nat (count_prod p (firstn (fed_count inv ls) ls))).
Proof.
  induction ls as [|a rest IH]; intros Hprod inv fed Hf.
  - exists inv. unfold fed_count. rewrite Nat.min_0_r.
    change (Z.of_nat 0) with 0. rewrite Z.add_0_r, Z.sub_0_r.
    repeat split. intros. unfold count_prod. simpl. lia.
  - inversion Hprod as [|? ? Hpa Hrest]; subst.
    cbn [feed_loop].
    destruct (Z.leb_spec (dict_get inv FEED 0) 0) as [Hz|Hpos].
    + assert (fed_count inv (a :: rest) = 0%nat) as ->.
      { unfold fed_count. replace (dict_get inv FEED 0) with 0 by lia. reflexivity. }
      exists inv. change (Z.of_nat 0) with 0. rewrite Z.add_0_r, Z.sub_0_r.
      repeat split. intros. unfold count_prod. simpl. lia.
    + destruct (inv !! FEED) as [f|] eqn:Ef;
        [|unfold dict_get in Hpos; rewrite Ef in Hpos; lia].
      assert (dict_get inv FEED 0 = f) as Hget by (unfold dict_get; by rewrite Ef).
      unfold feed. cbn [fst snd].
      set (p := product (livestock_type a)).
      set (inv1 := <[p := dict_get inv p 0 + 1]> inv).
      assert (inv1 !! FEED = Some f) as E1.
      { unfold inv1. rewrite lookup_insert_ne; [exact Ef|exact Hpa]. }
      rewrite E1.
      set (inv2 := <[FEED := f - 1]> inv1).
      assert (dict_get inv2 FEED 0 = f - 1) as Hg2 by apply dict_get_insert_eq.
      destruct (IH Hrest inv2 (fed + 1)) as (inv' & Hrun & Hfeed & Hitems); [lia|].
      assert (fed_count inv (a :: rest) = S (fed_count inv2 rest)) as Hk.
      { unfold fed_count. rewrite Hg2, Hget. simpl length.
        replace (Z.to_nat f) with (S (Z.to_nat (f - 1))) by lia.
        reflexivity. }
      rewrite Hrun. cbn [res_bind]. exists inv'.
      rewrite Hk. repeat split.
      * replace (fed + Z.of_nat (S (fed_count inv2 rest)))
          with (fed + 1 + Z.of_nat (fed_count inv2 rest)) by lia.
        reflexivity.
      * rewrite Hfeed, Hg2, Hget. lia.
      * intros q Hq. rewrite Hitems by exact Hq.
        unfold inv2. rewrite dict_get_insert_ne by congruence.
        unfold count_prod. cbn [firstn List.filter].
        destruct (decide (p = q)) as [<-|Hne].
        -- rewrite bool_decide_true by reflexivity. simpl length.
           unfold inv1. rewrite dict_get_insert_eq. lia.
        -- rewrite bool_decide_false by exact Hne.
           unfold inv1. rewrite dict_get_insert_ne by exact Hne. lia.
Qed.

Lemma feed_animals_run (st : GameState) :
  Forall (fun a => product (livestock_type a) <> FEED) (livestock st) ->
  0 <= dict_get (inventory st) FEED 0 ->
  exists inv',
    feed_animals st =
      Ok (set_inventory
            (set_livestock st (feed_prefix (fed_count (inventory st) (livestock st)) (livestock st)))
            inv',
          if dict_get (inventory st) FEED 0 <=? 0 then NotEnoughFeed
          else FedCount (Z.of_nat (fed_count (inventory st) (livestock st)))) /\
    dict_get inv' FEED 0 =
      dict_get (inventory st) FEED 0 - Z.of_nat (fed_count (inventory st) (livestock st)) /\
    (forall p, p <> FEED ->
       dict_get inv' p 0 =
         dict_get (inventory st) p 0 +
         Z.of_nat (count_prod p (firstn (fed_count (inventory st) (livestock st)) (livestock st)))).
Proof.
  intros Hprod Hf. unfold feed_animals.
  destruct (Z.leb_spec (dict_get (inventory st) FEED 0) 0) as [Hz|Hpos].
  - assert (fed_count (inventory st) (livestock st) = 0%nat) as ->.
    { unfold fed_count. replace (dict_get (inventory st) FEED 0) with 0 by lia. reflexivity. }
    exists (inventory st). split; [|split].
    + destruct st. reflexivity.
    + lia.
    + intros p _. unfold count_prod. simpl. lia.
  - destruct (feed_loop_spec (livestock st) Hprod (inventory st) 0 Hf)
      as (inv' & Hrun & Hfeed & Hitems).
    exists inv'. rewrite Hrun. cbn [res_bind]. rewrite Z.add_0_l.
    split; [reflexivity|]. split; assumption.
Qed.

Lemma fed_count_min (inv : gmap string Z) (ls : list Livestock) :
  0 <= dict_get inv FEED 0 ->
  Z.of_nat (fed_count inv ls) = Z.min (dict_get inv FEED 0) (Z.of_nat (length ls)).
Proof. intros H. unfold fed_count. rewrite Nat2Z.inj_min. lia. Qed.

(** C3: when no unit yields the feed item and the feed stock is not negative,
    [feed_animals] feeds the first [min(feed stock, number of units)] units
    in list order (their hunger reset to 0, the rest untouched), lowers the
    feed stock by exactly that number (so never below 0), credits each fed
    unit's product by 1, and changes nothing else. *)
Theorem feed_animals_spec (st : GameState) :
  Forall (fun a => product (livestock_type a) <> FEED) (livestock st) ->
  0 <= dict_get (inventory st) FEED 0 ->
  exists st' msg,
    feed_animals st = Ok (st', msg) /\
    livestock st' = feed_prefix (fed_count (inventory st) (livestock st)) (livestock st) /\
    Z.of_nat (fed_count (inventory st) (livestock st)) =
      Z.min (dict_get (inventory st) FEED 0) (Z.of_nat (length (livestock st))) /\
    dict_get (inventory st') FEED 0 =
      dict_get (inventory st) FEED 0 - Z.of_nat (fed_count (inventory st) (livestock st)) /\
    0 <= dict_get (inventory st') FEED 0 /\
    (forall p, p <> FEED ->
       dict_get (inventory st') p 0 =
         dict_get (inventory st) p 0 +
         Z.of_nat (count_prod p (firstn (fed_count (inventory st) (livestock st)) (livestock st)))) /\
    (day st', day_limit st', actions_per_day st', player_pos st', fields st', goal st') =
      (day st, day_limit st, actions_per_day st, player_pos st, fields st, goal st) /\
    msg = (if dict_get (inventory st) FEED 0 <=? 0 then NotEnoughFeed
           else FedCount (Z.of_nat (fed_count (inventory st) (livestock st)))).
Proof.
  intros Hprod Hf.
  destruct (feed_animals_run st Hprod Hf) as (inv' & Hrun & Hfeed & Hitems).
  pose proof (fed_count_min (inventory st) (livestock st) Hf) as Hmin.
  eexists _, _. split; [exact Hrun|]. cbn.
  repeat split; try assumption; try reflexivity. lia.
Qed.

(** The inventory and the counter [feed_loop] produces depend on the
    livestock types only, not on the hunger of the units. *)
Lemma feed_loop_types (l1 l2 : list Livestock) (inv : gmap string Z) (fed : Z) :
  map livestock_type l1 = map livestock_type l2 ->
  res_map (fun r => (snd (fst r), snd r)) (feed_loop l1 inv fed) =
  res_map (fun r => (snd (fst r), snd r)) (feed_loop l2 inv fed).
Proof.
  revert l2 inv fed.
  induction l1 as [|a1 r1 IH]; intros [|a2 r2] inv fed Heq; try discriminate.
  - reflexivity.
  - simpl in Heq. injection Heq as Ht Hr.
    cbn [feed_loop]. unfold feed. rewrite Ht.
    destruct (dict_get inv FEED 0 <=? 0); [reflexivity|].
    destruct (<[product (livestock_type a2) := _]> inv !! FEED); [|reflexivity].
    specialize (IH r2 (<[FEED := z - 1]> (<[product (livestock_type a2) :=
      dict_get inv (product (livestock_type a2)) 0 + 1]> inv)) (fed + 1) Hr).
    unfold res_map in *.
    destruct (feed_loop r1 _ _) as [[[x1 y1] z1]|e1];
      destruct (feed_loop r2 _ _) as [[[x2 y2] z2]|e2]; simpl in *; congruence.
Qed.

Lemma map_feed_types (l : list Livestock) :
  map livestock_type (map (fun a => fst (feed a)) l) = map livestock_type l.
Proof. induction l as [|a l IH]; simpl; [reflexivity|]. f_equal. exact IH. Qed.

Lemma count_prod_feed (p : string) (l : list Livestock) :
  count_prod p (map (fun a => fst (feed a)) l) = count_prod p l.
Proof.
  unfold count_prod. induction l as [|a l IH]; [reflexivity|].
  cbn [map List.filter].
  change (livestock_type (fst (feed a))) with (livestock_type a).
  destruct (bool_decide (product (livestock_type a) = p)); cbn [length];
    rewrite IH; reflexivity.
Qed.

Lemma feed_prefix_all (ls : list Livestock) :
  feed_prefix (length ls) ls = map (fun a => fst (feed a)) ls.
Proof. unfold feed_prefix. rewrite firstn_all, skipn_all, app_nil_r. reflexivity. Qed.

Lemma fed_count_all (inv : gmap string Z) (ls : list Livestock) :
  Z.of_nat (length ls) <= dict_get inv FEED 0 -> fed_count inv ls = length ls.
Proof. intros H. unfold fed_count. lia. Qed.

(** C10: [feed_animals] never looks at hunger: the inventory and message it
    produces are the same for any hunger values of the units.  With feed for
    two rounds, a first call leaves every unit at hunger 0, and a second call
    on that state still consumes one feed per unit and credits each unit's
    product again: over both calls the feed stock drops by twice the number
    of units and each product item grows by twice its number of units. *)
Theorem feed_ignores_hunger (st : GameState) :
  Forall (fun a => product (livestock_type a) <> FEED) (livestock st) ->
  2 * Z.of_nat (length (livestock st)) <= dict_get (inventory st) FEED 0 ->
  (forall l', map livestock_type l' = map livestock_type (livestock st) ->
     res_map (fun r => (inventory (fst r), snd r)) (feed_animals (set_livestock st l')) =
     res_map (fun r => (inventory (fst r), snd r)) (feed_animals st)) /\
  exists st1 m1 st2 m2,
    feed_animals st = Ok (st1, m1) /\
    Forall (fun a => hunger a = 0) (livestock st1) /\
    feed_animals st1 = Ok (st2, m2) /\
    dict_get (inventory st2) FEED 0 =
      dict_get (inventory st) FEED 0 - 2 * Z.of_nat (length (livestock st)) /\
    (forall p, p <> FEED ->
       dict_get (inventory st2) p 0 =
         dict_get (inventory st) p 0 + 2 * Z.of_nat (count_prod p (livestock st))).
Proof.
  intros Hprod Hf.
  split.
  - intros l' Hl. unfold feed_animals. cbn [inventory set_livestock livestock].
    destruct (dict_get (inventory st) FEED 0 <=? 0); [reflexivity|].
    pose proof (feed_loop_types l' (livestock st) (inventory st) 0 Hl) as Ht.
    unfold res_map in *.
    destruct (feed_loop l' (inventory st) 0) as [[[x1 y1] z1]|e1];
      destruct (feed_loop (livestock st) (inventory st) 0) as [[[x2 y2] z2]|e2];
      simpl in *; congruence.
  - destruct (feed_animals_run st Hprod) as (inv1 & Hrun1 & Hfeed1 & Hitems1); [lia|].
    rewrite fed_count_all in Hrun1, Hfeed1, Hitems1 by lia.
    rewrite feed_prefix_all in Hrun1.
    set (ls1 := map (fun a => fst (feed a)) (livestock st)) in *.
    set (st1 := set_inventory (set_livestock st ls1) inv1) in *.
    assert (Hprod1 : Forall (fun a => product (livestock_type a) <> FEED) (livestock st1)).
    { cbn. unfold ls1. apply Forall_map. exact Hprod. }
    assert (Hlen1 : length (livestock st1) = length (livestock st)).
    { cbn. unfold ls1. apply length_map. }
    destruct (feed_animals_run st1 Hprod1) as (inv2 & Hrun2 & Hfeed2 & Hitems2).
    { cbn. lia. }
    rewrite fed_count_all in Hrun2, Hfeed2, Hitems2 by (cbn [inventory st1 set_inventory]; rewrite Hlen1; lia).
    eexists st1, _, _, _. split; [exact Hrun1|]. split.
    { cbn. unfold ls1. apply Forall_map, Forall_forall. reflexivity. }
    split; [exact Hrun2|]. cbn [inventory set_inventory].
    rewrite firstn_all in Hitems1, Hitems2.
    split.
    + rewrite Hfeed2. cbn [inventory st1 set_inventory]. rewrite Hfeed1, Hlen1. lia.
    + intros p Hp. rewrite Hitems2 by exact Hp.
      cbn [inventory livestock st1 set_inventory set_livestock].
      rewrite Hitems1 by exact Hp. unfold ls1. rewrite count_prod_feed. lia.
Qed.

(** ** Interaction *)

Lemma feed_loop_raise (l : list Livestock) (inv : gmap string Z) (fed : Z) (e : exc) :
  feed_loop l inv fed = Raise e -> e = KeyError.
Proof.
  revert inv fed. induction l as [|a l IH]; intros inv fed H; cbn [feed_loop] in H.
  - discriminate.
  - destruct (dict_get inv FEED 0 <=? 0); [discriminate|].
    unfold feed in H. cbn iota beta zeta in H.
    destruct (<[_ := _]> inv !! FEED); [|congruence].
    destruct (feed_loop l _ _) as [[[x y] w]|e'] eqn:E; cbn in H; [discriminate|].
    injection H as <-. eapply IH. exact E.
Qed.

Lemma feed_animals_raise (st : GameState) (e : exc) :
  feed_animals st = Raise e -> e = KeyError.
Proof.
  unfold feed_animals. destruct (_ <=? 0); [discriminate|].
  destruct (feed_loop _ _ _) as [[[x y] z]|e'] eqn:E; cbn; [discriminate|].
  intros [= <-]. eapply feed_loop_raise. exact E.
Qed.

(** C9: [interact] never raises the [AttributeError] of [harvest] on an
    empty plot: it calls [harvest] only on a plot whose crop is set and
    ready, and such a plot has both [crop] and [planted_day] set. *)
Theorem interact_harvest_guarded (st : GameState) (i : nat) :
  interact st i <> Raise AttributeError /\
  (forall plot, fields st !! player_pos st = Some plot ->
     crop plot <> None -> is_ready plot (day st) = true ->
     (exists c d, crop plot = Some c /\ planted_day plot = Some d) /\
     interact st i =
       res_map (fun r => (fst r, Harvested (snd r))) (harvest st (player_pos st) plot)).
Proof.
  split.
  - unfold interact.
    destruct (fields st !! player_pos st) as [plot|].
    + destruct (crop plot) as [c|] eqn:Hc.
      * destruct (is_ready plot (day st)).
        -- unfold harvest. rewrite Hc. discriminate.
        -- destruct (planted_day plot); discriminate.
      * unfold plant_crop. destruct (nth_error CROPS i); discriminate.
    + destruct (decide (player_pos st = BARN_POSITION)); [|discriminate].
      destruct (feed_animals st) as [r|e0] eqn:E; cbn; [discriminate|].
      intros [= ->]. apply feed_animals_raise in E. discriminate.
  - intros plot Hf Hc Hr. split.
    + unfold is_ready in Hr.
      destruct (crop plot) as [c|], (planted_day plot) as [d|]; try discriminate.
      eauto.
    + unfold interact. rewrite Hf.
      destruct (crop plot) as [c|]; [|congruence]. rewrite Hr. reflexivity.
Qed.

(** [interact] on an empty plot plants: no crop is credited. *)
Lemma interact_empty_plot (st : GameState) (i : nat) (plot : FieldPlot) :
  fields st !! player_pos st = Some plot -> crop plot = None ->
  forall st' m, interact st i = Ok (st', m) ->
    inventory st' = inventory st /\ exists n, m = Planted n.
Proof.
  intros Hf Hc st' m H. unfold interact in H. rewrite Hf, Hc in H.
  unfold plant_crop in H. destruct (nth_error CROPS i) as [c|]; [|discriminate].
  cbn in H. injection H as <- <-. eauto.
Qed.

Lemma harvest_fields (st st' : GameState) (pos : Z * Z) (plot : FieldPlot) (name : string) :
  harvest st pos plot = Ok (st', name) ->
  exists c, crop plot = Some c /\ name = crop_name c /\
    fields st' = <[pos := empty_plot]> (fields st) /\
    player_pos st' = player_pos st /\
    inventory st' = <[name := dict_get (inventory st) name 0 + 1]> (inventory st).
Proof.
  unfold harvest. destruct (crop plot) as [c|]; [|discriminate].
  intros [= <- <-]. exists c. auto.
Qed.

(** C1 (as the code has it): [harvest] checks nothing; the readiness guard
    is in [interact], its only caller.  On an occupied plot that is not
    ready, [interact] changes nothing and reports the remaining days; on an
    empty plot it credits no crop (it plants); after [interact] harvested a
    plot, the plot is empty, so a second [interact] there credits nothing. *)
Theorem interact_guards_harvest (st : GameState) (i : nat) (plot : FieldPlot) :
  fields st !! player_pos st = Some plot ->
  (forall c d, crop plot = Some c -> planted_day plot = Some d ->
     is_ready plot (day st) = false ->
     interact st i = Ok (st, StillGrowing (crop_name c) (grow_days c - (day st - d)))) /\
  (crop plot = None -> forall st' m, interact st i = Ok (st', m) ->
     inventory st' = inventory st /\ exists n, m = Planted n) /\
  (forall st1 name, interact st i = Ok (st1, Harvested name) ->
     fields st1 !! player_pos st1 = Some empty_plot /\
     inventory st1 = <[name := dict_get (inventory st) name 0 + 1]> (inventory st) /\
     forall j st2 m, interact st1 j = Ok (st2, m) ->
       inventory st2 = inventory st1 /\ exists n, m = Planted n) /\
  (forall (s : GameState) (pos : Z * Z) (p : FieldPlot),
     (forall c, crop p = Some c ->
        harvest s pos p =
          Ok (set_fields
                (set_inventory s (<[crop_name c := dict_get (inventory s) (crop_name c) 0 + 1]>
                                    (inventory s)))
                (<[pos := empty_plot]> (fields s)),
              crop_name c)) /\
     (crop p = None -> harvest s pos p = Raise AttributeError)).
Proof.
  intros Hf. split; [|split; [|split]].
  - intros c d Hc Hd Hr. unfold interact. rewrite Hf, Hc, Hr, Hd. reflexivity.
  - apply interact_empty_plot. exact Hf.
  - intros st1 name H.
    assert (Hh : harvest st (player_pos st) plot = Ok (st1, name)).
    { unfold interact in H. rewrite Hf in H.
      destruct (crop plot) as [c|] eqn:Hc.
      - destruct (is_ready plot (day st)).
        + destruct (harvest st (player_pos st) plot) as [[s n]|e] eqn:E;
            cbn in H; congruence.
        + destruct (planted_day plot); discriminate.
      - unfold plant_crop in H. destruct (nth_error CROPS i); discriminate. }
    destruct (harvest_fields _ _ _ _ _ Hh) as (c & _ & _ & Hfl & Hpos & Hinv).
    assert (Hf1 : fields st1 !! player_pos st1 = Some empty_plot).
    { rewrite Hfl, Hpos. apply lookup_insert_eq. }
    split; [exact Hf1|]. split; [exact Hinv|].
    intros j. exact (interact_empty_plot st1 j empty_plot Hf1 eq_refl).
  - intros s pos p. unfold harvest. split.
    + intros c ->. reflexivity.
    + intros ->. reflexivity.
Qed.

(** C1 fails: [harvest] on the carrot that is not ready on day 1 credits it
    and empties the plot, and [harvest] on an empty plot raises
    [AttributeError] (uncaught) instead of a reported refusal. *)
Lemma harvest_not_guarded :
  is_ready carrot_plot (day carrot_state) = false /\
  (exists st', harvest carrot_state (2, 1) carrot_plot = Ok (st', "にんじん") /\
     dict_get (inventory st') "にんじん" 0 = 1 /\
     dict_get (inventory carrot_state) "にんじん" 0 = 0 /\
     fields st' !! (2, 1) = Some empty_plot) /\
  harvest initial_state (2, 1) empty_plot = Raise AttributeError.
Proof.
  split; [reflexivity|]. split; [|reflexivity].
  eexists. split; [reflexivity|]. vm_compute. auto.
Qed.

(** ** Feeding with no feed *)

(** C2 (as the code has it): at the barn with no feed, the work action
    changes nothing in the state (inventory and every unit's hunger
    included) and only reports the lack of feed, but [main] still counts it
    as an action: [actions_left] drops by 1. *)
Theorem empty_feed_consumes_action (st : GameState) (actions_left : Z) (i : nat)
    (rest : list Choice) :
  player_pos st = BARN_POSITION ->
  fields st !! BARN_POSITION = None ->
  dict_get (inventory st) FEED 0 <= 0 ->
  interact st i = Ok (st, Fed NotEnoughFeed) /\
  do_choice st actions_left (CInteract i) = Ok (st, actions_left - 1) /\
  (0 < actions_left -> goal_met st = false ->
   step st (InnerTest actions_left) (CInteract i :: rest) =
     Continue st (InnerTest (actions_left - 1)) rest).
Proof.
  intros Hpos Hf Hfeed.
  assert (Hi : interact st i = Ok (st, Fed NotEnoughFeed)).
  { unfold interact. rewrite Hpos, Hf.
    rewrite decide_True by reflexivity.
    unfold feed_animals. rewrite <- Z.leb_le in Hfeed. rewrite Hfeed. reflexivity. }
  assert (Hd : do_choice st actions_left (CInteract i) = Ok (st, actions_left - 1)).
  { cbn [do_choice]. rewrite Hi. reflexivity. }
  split; [exact Hi|]. split; [exact Hd|].
  intros Hal Hg. unfold step. rewrite <- Z.ltb_lt in Hal. rewrite Hal, Hd, Hg. reflexivity.
Qed.

(** C2 fails: with 3 actions left, the feed attempt at the barn without feed
    leaves 2. *)
Lemma empty_feed_uses_action :
  dict_get (inventory barn_no_feed) FEED 0 = 0 /\
  step barn_no_feed (InnerTest 3) [CInteract 0] =
    Continue barn_no_feed (InnerTest 2) [].
Proof. split; vm_compute; reflexivity. Qed.

(** ** The main loop *)

Lemma feed_animals_day (st st' : GameState) (m : FeedMsg) :
  feed_animals st = Ok (st', m) -> day st' = day st /\ day_limit st' = day_limit st.
Proof.
  unfold feed_animals. destruct (_ <=? 0); [intros [= <- _]; auto|].
  destruct (feed_loop _ _ _) as [[[x y] z]|e]; cbn; [|discriminate].
  intros [= <- _]. auto.
Qed.

Lemma interact_day (st st' : GameState) (i : nat) (m : InteractMsg) :
  interact st i = Ok (st', m) -> day st' = day st /\ day_limit st' = day_limit st.
Proof.
  unfold interact.
  destruct (fields st !! player_pos st) as [plot|].
  - destruct (crop plot) as [c|].
    + destruct (is_ready plot (day st)).
      * unfold harvest. destruct (crop plot); cbn; [|discriminate].
        intros [= <- _]. auto.
      * destruct (planted_day plot); [intros [= <- _]; auto|discriminate].
    + unfold plant_crop. destruct (nth_error CROPS i); cbn; [|discriminate].
      intros [= <- _]. auto.
  - destruct (decide _); [|intros [= <- _]; auto].
    destruct (feed_animals st) as [[s fm]|e0] eqn:E; cbn; [|discriminate].
    intros [= <- _]. eapply feed_animals_day. exact E.
Qed.

Lemma do_choice_day (st st' : GameState) (al al' : Z) (c : Choice) :
  do_choice st al c = Ok (st', al') -> day st' = day st /\ day_limit st' = day_limit st.
Proof.
  destruct c as [k|i| |]; cbn [do_choice].
  - intros [= <- _]. unfold move_player. destruct (directions k). auto.
  - destruct (interact st i) as [[s m]|e0] eqn:E; cbn; [|discriminate].
    intros [= <- _]. eapply interact_day. exact E.
  - destruct (print_status st); cbn; [|discriminate]. intros [= <- _]. auto.
  - intros [= <- _]. auto.
Qed.

Lemma goal_met_end_day (st : GameState) : goal_met (end_day st) = goal_met st.
Proof. reflexivity. Qed.

Lemma step_ok (L : Z) (st : GameState) (ph : Phase) (inputs : list Choice) :
  loop_ok L (Continue st ph inputs) -> loop_ok L (step st ph inputs).
Proof.
  destruct ph as [|al]; cbn [loop_ok step]; intros [HL Hd].
  - destruct (Z.leb_spec (day st) (day_limit st)); cbn; [lia|].
    destruct (goal_met st); cbn; lia.
  - destruct (0 <? al); [|cbn; lia].
    destruct inputs as [|c rest]; [cbn; lia|].
    destruct (do_choice st al c) as [[st' al']|e0] eqn:E; [|exact I].
    apply do_choice_day in E as [E1 E2].
    destruct (goal_met st'); cbn; [exact I|lia].
Qed.

Lemma run_ok (L : Z) (n : nat) :
  forall st ph inputs, loop_ok L (Continue st ph inputs) -> loop_ok L (run n st ph inputs).
Proof.
  induction n as [|n IH]; intros st ph inputs H; cbn [run]; [exact H|].
  pose proof (step_ok L st ph inputs H) as Hs.
  destruct (step st ph inputs) as [st' ph' inputs'| |]; [apply IH|..]; exact Hs.
Qed.

Lemma main_cases (n : nat) (inputs : list Choice) :
  main n inputs = run n initial_state OuterTest inputs \/
  exists st e, run n initial_state OuterTest inputs = Stop (TimeUp st) /\
               main n inputs = Stop (Crash e).
Proof.
  unfold main.
  destruct (run n initial_state OuterTest inputs) as [s ph l|[s|s|s|e]|s al];
    auto.
  destruct (print_status s) as [l|e]; [left; reflexivity|right; eauto].
Qed.

(** C8: a goal met after any action of a day ends [main] at once with
    success, whatever the day; with the day limit 10 and the goal unmet, once
    the actions of day 10 are used up [end_day] moves to day 11 and [main]
    stops with the time-up failure, reading no further input; and no day of
    [main] is played after day 10. *)
Theorem main_loop_ends (st : GameState) (actions_left : Z) (inputs : list Choice) :
  actions_left <= 0 -> day_limit st = 10 -> day st = 10 -> goal_met st = false ->
  run 2 st (InnerTest actions_left) inputs = Stop (TimeUp (end_day st)) /\
  day (end_day st) = 11 /\
  (forall st0 al0 c rest st1 al1,
     0 < al0 -> do_choice st0 al0 c = Ok (st1, al1) -> goal_met st1 = true ->
     step st0 (InnerTest al0) (c :: rest) = Stop (GoalReached st1)) /\
  (forall n inputs0, loop_ok 10 (main n inputs0)).
Proof.
  intros Hal HL Hd Hg. split; [|split; [|split]].
  - unfold run, step.
    replace (0 <? actions_left) with false by (symmetry; apply Z.ltb_ge; lia).
    cbn [end_day set_day set_livestock day day_limit].
    rewrite Hd, HL. cbn. rewrite goal_met_end_day, Hg. reflexivity.
  - cbn. lia.
  - intros st0 al0 c rest st1 al1 H0 Hc Hg1. unfold step.
    replace (0 <? al0) with true by (symmetry; apply Z.ltb_lt; lia).
    rewrite Hc, Hg1. reflexivity.
  - intros n inputs0.
    destruct (main_cases n inputs0) as [->|(s & e & _ & ->)]; [|exact I].
    apply run_ok. cbn. lia.
Qed.

(** ** Witnesses: the theorems applied at concrete states *)

Lemma remaining_days_spec_witness :
  crop carrot_plot = Some carrot /\ planted_day carrot_plot = Some 1 /\
  is_ready carrot_plot 2 = false /\
  plot_status carrot_plot 2 = Ok (Remaining "にんじん" 1).
Proof.
  split; [reflexivity|]. split; [reflexivity|]. split; [reflexivity|].
  destruct (remaining_days_spec carrot_plot carrot 1 2 eq_refl eq_refl eq_refl) as [H _].
  exact H.
Defined.

Lemma move_player_spec_witness :
  in_grid (player_pos initial_state) = true /\
  player_pos (Nat.iter 5 (fun s => move_player s KeyA) initial_state) = (0, 0).
Proof.
  split; [reflexivity|].
  destruct (move_player_spec initial_state KeyA 3 eq_refl) as (_ & _ & _ & _ & H).
  exact (H eq_refl 5%nat).
Defined.

Lemma initial_products_not_feed :
  Forall (fun a => product (livestock_type a) <> FEED) (livestock initial_state).
Proof. repeat constructor; cbn; discriminate. Qed.

Lemma feed_animals_spec_witness :
  Forall (fun a => product (livestock_type a) <> FEED) (livestock initial_state) /\
  0 <= dict_get (inventory initial_state) FEED 0 /\
  exists st' msg,
    feed_animals initial_state = Ok (st', msg) /\
    dict_get (inventory st') FEED 0 =
      dict_get (inventory initial_state) FEED 0 -
      Z.of_nat (fed_count (inventory initial_state) (livestock initial_state)).
Proof.
  assert (H2 : 0 <= dict_get (inventory initial_state) FEED 0) by (vm_compute; discriminate).
  split; [exact initial_products_not_feed|]. split; [exact H2|].
  destruct (feed_animals_spec initial_state initial_products_not_feed H2)
    as (st' & msg & Hrun & _ & _ & Hfeed & _).
  exists st', msg. split; assumption.
Defined.

Lemma feed_ignores_hunger_witness :
  2 * Z.of_nat (length (livestock initial_state)) <= dict_get (inventory initial_state) FEED 0 /\
  exists st1 m1 st2 m2,
    feed_animals initial_state = Ok (st1, m1) /\
    feed_animals st1 = Ok (st2, m2) /\
    dict_get (inventory st2) FEED 0 = 0.
Proof.
  assert (H2 : 2 * Z.of_nat (length (livestock initial_state)) <=
               dict_get (inventory initial_state) FEED 0) by (vm_compute; discriminate).
  split; [exact H2|].
  destruct (feed_ignores_hunger initial_state initial_products_not_feed H2)
    as (_ & st1 & m1 & st2 & m2 & H1 & _ & H3 & H4 & _).
  exists st1, m1, st2, m2. split; [exact H1|]. split; [exact H3|].
  rewrite H4. vm_compute. reflexivity.
Defined.

Lemma interact_guards_harvest_witness :
  fields carrot_state !! player_pos carrot_state = Some carrot_plot /\
  interact carrot_state 0 = Ok (carrot_state, StillGrowing "にんじん" 2).
Proof.
  assert (Hf : fields carrot_state !! player_pos carrot_state = Some carrot_plot)
    by (vm_compute; reflexivity).
  split; [exact Hf|].
  destruct (interact_guards_harvest carrot_state 0 carrot_plot Hf) as (H & _ & _).
  exact (H carrot 1 eq_refl eq_refl eq_refl).
Defined.

Lemma empty_feed_consumes_action_witness :
  player_pos barn_no_feed = BARN_POSITION /\
  fields barn_no_feed !! BARN_POSITION = None /\
  dict_get (inventory barn_no_feed) FEED 0 <= 0 /\
  do_choice barn_no_feed 3 (CInteract 0) = Ok (barn_no_feed, 2).
Proof.
  assert (H1 : player_pos barn_no_feed = BARN_POSITION) by reflexivity.
  assert (H2 : fields barn_no_feed !! BARN_POSITION = None) by (vm_compute; reflexivity).
  assert (H3 : dict_get (inventory barn_no_feed) FEED 0 <= 0) by (vm_compute; discriminate).
  split; [exact H1|]. split; [exact H2|]. split; [exact H3|].
  destruct (empty_feed_consumes_action barn_no_feed 3 0 [] H1 H2 H3) as (_ & H & _).
  exact H.
Defined.

Lemma main_loop_ends_witness :
  day_limit last_day_state = 10 /\ day last_day_state = 10 /\
  goal_met last_day_state = false /\
  run 2 last_day_state (InnerTest 0) [] = Stop (TimeUp (end_day last_day_state)).
Proof.
  assert (Hg : goal_met last_day_state = false) by (vm_compute; reflexivity).
  split; [reflexivity|]. split; [reflexivity|]. split; [exact Hg|].
  destruct (main_loop_ends last_day_state 0 [] ltac:(lia) eq_refl eq_refl Hg) as [H _].
  exact H.
Defined.

(** ** Further properties of the code *)

Lemma dict_get_nonneg {K} `{EqDecision K, Countable K} (m : gmap K Z) (k : K) :
  map_Forall (fun _ v => 0 <= v) m -> 0 <= dict_get m k 0.
Proof.
  intros Hm. unfold dict_get. destruct (m !! k) eqn:E; [exact (Hm _ _ E)|lia].
Qed.

Lemma dict_get_pos_lookup {K} `{EqDecision K, Countable K} (m : gmap K Z) (k : K) :
  0 < dict_get m k 0 -> exists v, m !! k = Some v /\ dict_get m k 0 = v.
Proof. unfold dict_get. destruct (m !! k); [eauto|lia]. Qed.

Lemma feed_loop_no_raise (ls : list Livestock) :
  forall inv fed, exists r, feed_loop ls inv fed = Ok r.
Proof.
  induction ls as [|a rest IH]; intros inv fed; cbn [feed_loop]; [eauto|].
  destruct (Z.leb_spec (dict_get inv FEED 0) 0) as [_|Hpos]; [eauto|].
  destruct (dict_get_pos_lookup inv FEED Hpos) as (f & Ef & _).
  unfold feed. cbn iota beta zeta.
  rewrite lookup_insert.
  destruct (decide (product (livestock_type a) = FEED)) as [_|_]; [|rewrite Ef];
    (match goal with |- context [feed_loop rest ?i ?n] =>
       destruct (IH i n) as [[[x y] z] ->] end); cbn; eauto.
Qed.

Lemma feed_animals_never_raises_core (st : GameState) :
  exists st' m, feed_animals st = Ok (st', m).
Proof.
  unfold feed_animals. destruct (_ <=? 0); [eauto|].
  destruct (feed_loop_no_raise (livestock st) (inventory st) 0) as [[[x y] z] ->].
  cbn. eauto.
Qed.

Lemma feed_loop_inv (ls : list Livestock) :
  forall inv fed ls' inv' fed',
  feed_loop ls inv fed = Ok (ls', inv', fed') ->
  map_Forall (fun _ v => 0 <= v) inv ->
  Forall (fun a => 0 <= hunger a) ls ->
  map livestock_type ls' = map livestock_type ls /\
  Forall (fun a => 0 <= hunger a) ls' /\
  map_Forall (fun _ v => 0 <= v) inv'.
Proof.
  induction ls as [|a rest IH]; intros inv fed ls' inv' fed' H Hinv Hh;
    cbn [feed_loop] in H.
  - injection H as <- <- _. auto.
  - destruct (Z.leb_spec (dict_get inv FEED 0) 0) as [_|Hpos].
    { injection H as <- <- _. auto. }
    unfold feed in H. cbn iota beta zeta in H.
    set (p := product (livestock_type a)) in H.
    set (inv1 := <[p := dict_get inv p 0 + 1]> inv) in H.
    assert (Hinv1 : map_Forall (fun _ v => 0 <= v) inv1).
    { apply map_Forall_insert_2; [|exact Hinv].
      pose proof (dict_get_nonneg inv p Hinv). lia. }
    destruct (inv1 !! FEED) as [f|] eqn:E1; [|discriminate].
    assert (Hf : 1 <= f).
    { unfold inv1 in E1. rewrite lookup_insert in E1.
      destruct (decide (p = FEED)) as [_|_].
      - injection E1 as <-. pose proof (dict_get_nonneg inv p Hinv). lia.
      - destruct (dict_get_pos_lookup inv FEED Hpos) as (v & Ev & Hv).
        rewrite Ev in E1. injection E1 as <-. lia. }
    destruct (feed_loop rest _ _) as [[[ls2 inv2] fed2]|e] eqn:Er; cbn in H; [|discriminate].
    injection H as <- <- _.
    inversion Hh as [|? ? Ha Hrest]; subst.
    destruct (IH _ _ _ _ _ Er) as (Ht & Hh2 & Hi2).
    + apply map_Forall_insert_2; [cbn; lia|exact Hinv1].
    + exact Hrest.
    + cbn. rewrite Ht. split; [reflexivity|]. split; [|exact Hi2].
      constructor; [cbn; lia|exact Hh2].
Qed.

Lemma wf_insert_plot (st : GameState) (pos : Z * Z) (plot : FieldPlot) :
  wf st -> is_Some (fields st !! pos) -> plot_ok (day st) plot ->
  wf (set_fields st (<[pos := plot]> (fields st))).
Proof.
  intros (Hp & Hi & Hg & Hd & Ht & Hh) Hs Hok.
  repeat split; cbn; try assumption.
  - apply map_Forall_insert_2; assumption.
  - rewrite dom_insert_lookup_L by exact Hs. exact Hd.
Qed.

Lemma interact_wf (st st' : GameState) (i : nat) (m : InteractMsg) :
  wf st -> interact st i = Ok (st', m) -> wf st'.
Proof.
  intros Hwf H. unfold interact in H.
  destruct (fields st !! player_pos st) as [plot|] eqn:Ef.
  - destruct (crop plot) as [c|] eqn:Hc.
    + destruct (is_ready plot (day st)).
      * unfold harvest in H. rewrite Hc in H. cbn in H. injection H as <- _.
        destruct Hwf as (Hp & Hi & Hg & Hd & Ht & Hh).
        repeat split; cbn; try assumption.
        -- apply map_Forall_insert_2; [exact I|exact Hp].
        -- apply map_Forall_insert_2; [|exact Hi].
           pose proof (dict_get_nonneg (inventory st) (crop_name c) Hi). lia.
        -- rewrite dom_insert_lookup_L by (rewrite Ef; eauto). exact Hd.
      * destruct (planted_day plot); [|discriminate]. injection H as <- _. exact Hwf.
    + unfold plant_crop in H. destruct (nth_error CROPS i); cbn in H; [|discriminate].
      injection H as <- _. apply wf_insert_plot; [exact Hwf| rewrite Ef; eauto |].
      cbn. lia.
  - destruct (decide _); [|injection H as <- _; exact Hwf].
    unfold feed_animals in H.
    destruct (_ <=? 0); [injection H as <- _; exact Hwf|].
    destruct (feed_loop _ _ _) as [[[ls inv] fed]|e1] eqn:E; cbn in H; [|discriminate].
    injection H as <- _.
    destruct Hwf as (Hp & Hi & Hg & Hd & Ht & Hh).
    destruct (feed_loop_inv _ _ _ _ _ _ E Hi Hh) as (Ht2 & Hh2 & Hi2).
    repeat split; cbn; try assumption. rewrite Ht2. exact Ht.
Qed.

Lemma move_player_wf (st : GameState) (k : Key) : wf st -> wf (move_player st k).
Proof.
  intros Hwf. pose proof (move_player_in_grid st k) as Hg.
  unfold move_player in *. destruct (directions k).
  destruct Hwf as (Hp & Hi & _ & Hd & Ht & Hh). repeat split; assumption.
Qed.

Lemma do_choice_wf (st st' : GameState) (al al' : Z) (c : Choice) :
  wf st -> do_choice st al c = Ok (st', al') -> wf st'.
Proof.
  intros Hwf. destruct c as [k|i| |]; cbn [do_choice].
  - intros [= <- _]. apply move_player_wf, Hwf.
  - destruct (interact st i) as [[s m]|e1] eqn:E; cbn; [|discriminate].
    intros [= <- _]. eapply interact_wf; eassumption.
  - destruct (print_status st); cbn; [|discriminate]. intros [= <- _]. exact Hwf.
  - intros [= <- _]. exact Hwf.
Qed.

Lemma end_day_wf (st : GameState) : wf st -> wf (end_day st).
Proof.
  intros (Hp & Hi & Hg & Hd & Ht & Hh).
  repeat split; cbn; try assumption.
  - intros pos plot E. specialize (Hp pos plot E). unfold plot_ok in *.
    destruct (crop plot), (planted_day plot); (lia || exact Hp).
  - rewrite map_map. exact Ht.
  - apply Forall_map. eapply Forall_impl; [exact Hh|]. intros a Ha. cbn in *. lia.
Qed.

Lemma step_wf (st : GameState) (ph : Phase) (inputs : list Choice) :
  wf st -> match step st ph inputs with
           | Continue st' _ _ | AwaitInput st' _ => wf st'
           | Stop o => forall st', reached (Stop o) = Some st' -> wf st'
           end.
Proof.
  intros Hwf. destruct ph as [|al]; cbn [step].
  - destruct (day st <=? day_limit st); [exact Hwf|].
    destruct (goal_met st); intros st' [= <-]; exact Hwf.
  - destruct (0 <? al); [|apply end_day_wf, Hwf].
    destruct inputs as [|c rest]; [exact Hwf|].
    destruct (do_choice st al c) as [[st1 al1]|e1] eqn:E; [|discriminate].
    apply do_choice_wf in E; [|exact Hwf].
    destruct (goal_met st1); [intros st' [= <-]|]; exact E.
Qed.

Lemma run_wf (n : nat) :
  forall st ph inputs st', wf st -> reached (run n st ph inputs) = Some st' -> wf st'.
Proof.
  induction n as [|n IH]; intros st ph inputs st' Hwf H; cbn [run] in H.
  - injection H as <-. exact Hwf.
  - pose proof (step_wf st ph inputs Hwf) as Hs.
    destruct (step st ph inputs) as [s1 ph1 in1|o|s1 al1].
    + exact (IH _ _ _ _ Hs H).
    + exact (Hs st' H).
    + injection H as <-. exact Hs.
Qed.

Lemma wf_initial : wf initial_state.
Proof.
  repeat split.
  - apply map_Forall_to_list. vm_compute. repeat constructor.
  - apply map_Forall_to_list. vm_compute. repeat constructor; discriminate.
  - repeat constructor; cbn; lia.
Qed.

Lemma main_wf (n : nat) (inputs : list Choice) (st : GameState) :
  reached (main n inputs) = Some st -> wf st.
Proof.
  intros H. destruct (main_cases n inputs) as [E|(s & e & _ & E)]; rewrite E in H;
    [exact (run_wf n _ _ _ _ wf_initial H)|discriminate].
Qed.

Lemma plot_status_no_raise (d : Z) (plot : FieldPlot) :
  plot_ok d plot -> exists s, plot_status plot d = Ok s.
Proof.
  unfold plot_ok, plot_status.
  destruct (crop plot), (planted_day plot); intros H; try contradiction; eauto.
  destruct (is_ready _ _); eauto.
Qed.

Lemma print_status_no_raise (st : GameState) :
  map_Forall (fun _ p => plot_ok (day st) p) (fields st) ->
  exists l, print_status st = Ok l.
Proof.
  intros H. apply map_Forall_to_list in H. unfold print_status.
  induction H as [|[pos plot] l Hx Hl IH]; cbn; [eauto|].
  destruct (plot_status_no_raise _ _ Hx) as [s ->]. cbn.
  destruct IH as [ys ->]. cbn. eauto.
Qed.

Lemma interact_no_raise (st : GameState) (i : nat) :
  wf st -> (i < length CROPS)%nat -> exists r, interact st i = Ok r.
Proof.
  intros Hwf Hi. unfold interact.
  destruct (fields st !! player_pos st) as [plot|] eqn:Ef.
  - destruct Hwf as (Hp & _). pose proof (Hp _ _ Ef) as Hok. unfold plot_ok in Hok.
    destruct (crop plot) as [c|] eqn:Hc.
    + destruct (is_ready plot (day st)).
      * unfold harvest. rewrite Hc. cbn. eauto.
      * destruct (planted_day plot); [eauto|contradiction].
    + unfold plant_crop.
      destruct (nth_error CROPS i) eqn:En; [cbn; eauto|].
      apply nth_error_None in En. lia.
  - destruct (decide _); [|eauto].
    destruct (feed_animals_never_raises_core st) as (st' & m & ->). cbn. eauto.
Qed.

(** X1: [feed_animals] never raises: the [KeyError] that
    [state.inventory["エサ"] -= 1] could raise cannot happen, because the
    loop only reaches it after seeing a positive feed count.  From a
    non-negative inventory and hunger it keeps the livestock types, keeps
    hunger non-negative and keeps every count non-negative (feed included). *)
Theorem feed_animals_never_raises (st : GameState) :
  (exists st' m, feed_animals st = Ok (st', m)) /\
  (forall st' m, feed_animals st = Ok (st', m) ->
     map_Forall (fun _ v => 0 <= v) (inventory st) ->
     Forall (fun a => 0 <= hunger a) (livestock st) ->
     map livestock_type (livestock st') = map livestock_type (livestock st) /\
     Forall (fun a => 0 <= hunger a) (livestock st') /\
     map_Forall (fun _ v => 0 <= v) (inventory st')).
Proof.
  split; [apply feed_animals_never_raises_core|].
  intros st' m H Hi Hh. unfold feed_animals in H.
  destruct (_ <=? 0); [injection H as <- _; auto|].
  destruct (feed_loop _ _ _) as [[[ls inv] fed]|e1] eqn:E; cbn in H; [|discriminate].
  injection H as <- _. cbn. exact (feed_loop_inv _ _ _ _ _ _ E Hi Hh).
Qed.

Lemma do_choice_no_raise (st : GameState) (al : Z) (c : Choice) :
  wf st -> valid_choice c -> exists r, do_choice st al c = Ok r.
Proof.
  intros Hwf Hc. destruct c as [k|i| |]; cbn [do_choice]; eauto.
  - destruct (interact_no_raise st i Hwf Hc) as [r ->]. cbn. eauto.
  - destruct Hwf as (Hp & _). destruct (print_status_no_raise st Hp) as [l ->].
    cbn. eauto.
Qed.

Lemma step_no_crash (st : GameState) (ph : Phase) (inputs : list Choice) :
  wf st -> Forall valid_choice inputs ->
  match step st ph inputs with
  | Continue st' _ inputs' => wf st' /\ Forall valid_choice inputs'
  | AwaitInput st' _ => True
  | Stop (Crash _) => False
  | Stop _ => True
  end.
Proof.
  intros Hwf Hin. destruct ph as [|al]; cbn [step].
  - destruct (day st <=? day_limit st); [auto|].
    destruct (goal_met st); exact I.
  - destruct (0 <? al); [|split; [apply end_day_wf, Hwf|exact Hin]].
    destruct inputs as [|c rest]; [exact I|].
    inversion Hin as [|? ? Hc Hrest]; subst.
    destruct (do_choice_no_raise st al c Hwf Hc) as [[st1 al1] E]. rewrite E.
    apply do_choice_wf in E; [|exact Hwf].
    destruct (goal_met st1); [exact I|auto].
Qed.

Lemma run_no_crash (n : nat) :
  forall st ph inputs, wf st -> Forall valid_choice inputs ->
  reached (run n st ph inputs) <> None.
Proof.
  induction n as [|n IH]; intros st ph inputs Hwf Hin; cbn [run]; [discriminate|].
  pose proof (step_no_crash st ph inputs Hwf Hin) as Hs.
  destruct (step st ph inputs) as [s1 ph1 in1|[s1|s1|s1|e1]|s1 al1];
    try discriminate; try contradiction.
  destruct Hs as [Hw Hi]. exact (IH _ _ _ Hw Hi).
Qed.

(** X2: [main] never crashes on inputs its prompts can return (a crop index
    inside [CROPS]): no step raises an exception, whatever the choices, and
    neither does the [print_status] call after the time-up message. *)
Theorem main_never_crashes (n : nat) (inputs : list Choice) :
  Forall valid_choice inputs ->
  forall e, main n inputs <> Stop (Crash e).
Proof.
  intros Hin e H. destruct (main_cases n inputs) as [E|(s & e1 & Er & E)].
  - apply (run_no_crash n initial_state OuterTest inputs wf_initial Hin).
    rewrite <- E, H. reflexivity.
  - assert (Hr : reached (run n initial_state OuterTest inputs) = Some s)
      by (rewrite Er; reflexivity).
    destruct (run_wf n _ _ _ _ wf_initial Hr) as [Hp _].
    destruct (print_status_no_raise s Hp) as [l Hl].
    unfold main in H. rewrite Er, Hl in H. discriminate.
Qed.

(** X3: in every state [main] reaches, each plot has both a crop and a
    planting day or neither, and was planted no later than the current day. *)
Theorem main_plots_consistent (n : nat) (inputs : list Choice) (st : GameState) :
  reached (main n inputs) = Some st ->
  forall pos plot, fields st !! pos = Some plot ->
    (crop plot = None <-> planted_day plot = None) /\
    (forall d, planted_day plot = Some d -> d <= day st).
Proof.
  intros H pos plot Hf. destruct (main_wf n inputs st H) as (Hp & _).
  pose proof (Hp pos plot Hf) as Hok. unfold plot_ok in Hok.
  destruct (crop plot), (planted_day plot); try contradiction;
    split; try (split; congruence); intros d' [= <-]; exact Hok.
Qed.

(** X4: every count of the inventory stays non-negative in every state
    [main] reaches. *)
Theorem main_inventory_nonneg (n : nat) (inputs : list Choice) (st : GameState) :
  reached (main n inputs) = Some st ->
  forall item, 0 <= dict_get (inventory st) item 0.
Proof.
  intros H item. destruct (main_wf n inputs st H) as (_ & Hi & _).
  apply dict_get_nonneg, Hi.
Qed.

(** X5: in every state [main] reaches, the player is inside the grid, the
    field positions are exactly [FIELD_POSITIONS], the livestock are the two
    chickens and the cow of the start, in that order, and no hunger is
    negative. *)
Theorem main_layout_fixed (n : nat) (inputs : list Choice) (st : GameState) :
  reached (main n inputs) = Some st ->
  in_grid (player_pos st) = true /\
  dom (fields st) = list_to_set FIELD_POSITIONS /\
  map livestock_type (livestock st) = [chicken; chicken; cow] /\
  Forall (fun a => 0 <= hunger a) (livestock st).
Proof.
  intros H. destruct (main_wf n inputs st H) as (_ & _ & Hg & Hd & Ht & Hh). auto.
Qed.

Lemma interact_frame_core (st st' : GameState) (i : nat) (m : InteractMsg) :
  interact st i = Ok (st', m) ->
  day st' = day st /\ day_limit st' = day_limit st /\
  actions_per_day st' = actions_per_day st /\ player_pos st' = player_pos st /\
  goal st' = goal st.
Proof.
  unfold interact.
  destruct (fields st !! player_pos st) as [plot|].
  - destruct (crop plot) as [c|].
    + destruct (is_ready plot (day st)).
      * unfold harvest. destruct (crop plot); cbn; [|discriminate].
        intros [= <- _]. auto.
      * destruct (planted_day plot); [intros [= <- _]; auto|discriminate].
    + unfold plant_crop. destruct (nth_error CROPS i); cbn; [|discriminate].
      intros [= <- _]. auto.
  - destruct (decide _); [|intros [= <- _]; auto].
    unfold feed_animals. destruct (_ <=? 0); [intros [= <- _]; auto|].
    destruct (feed_loop _ _ _) as [[[x y] z]|e1]; cbn; [|discriminate].
    intros [= <- _]. auto.
Qed.

Lemma do_choice_apd (st st' : GameState) (al al' : Z) (c : Choice) :
  do_choice st al c = Ok (st', al') ->
  actions_per_day st' = actions_per_day st /\
  (al' = al - 1 \/ al' = al \/ al' = 0).
Proof.
  destruct c as [k|i| |]; cbn [do_choice].
  - intros [= <- <-]. unfold move_player. destruct (directions k). auto.
  - destruct (interact st i) as [[s m]|e1] eqn:E; cbn; [|discriminate].
    intros [= <- <-]. apply interact_frame_core in E. intuition.
  - destruct (print_status st); cbn; [|discriminate]. intros [= <- <-]. auto.
  - intros [= <- <-]. auto.
Qed.

Lemma step_inputs (total : nat) (st : GameState) (ph : Phase) (inputs : list Choice) :
  inputs_ok total (Continue st ph inputs) -> inputs_ok total (step st ph inputs).
Proof.
  destruct ph as [|al]; cbn [inputs_ok step].
  - intros [Ha Hd].
    destruct (Z.leb_spec (day st) (day_limit st)).
    + cbn. rewrite Ha. repeat split; [lia|]. cbn. lia.
    + destruct (goal_met st); cbn; lia.
  - intros (Ha & Hal & Hd).
    destruct (Z.ltb_spec 0 al) as [Hpos|Hneg].
    + destruct inputs as [|c rest].
      * cbn in *. repeat split; [exact Ha|lia|lia].
      * destruct (do_choice st al c) as [[st1 al1]|e1] eqn:E; [|exact I].
        pose proof E as E'. apply do_choice_day in E' as [Hday _].
        apply do_choice_apd in E as [Ha1 Hal1].
        destruct (goal_met st1); [exact I|].
        cbn in Hd |- *. rewrite Hday, Ha1.
        destruct (al1 <? 3), (al <? 3); repeat split; lia.
    + cbn. rewrite Ha. split; [reflexivity|].
      replace (al <? 3) with true in Hd by (symmetry; apply Z.ltb_lt; lia).
      lia.
Qed.

Lemma run_inputs (total n : nat) :
  forall st ph inputs, inputs_ok total (Continue st ph inputs) ->
  inputs_ok total (run n st ph inputs).
Proof.
  induction n as [|n IH]; intros st ph inputs H; cbn [run]; [exact H|].
  pose proof (step_inputs total st ph inputs H) as Hs.
  destruct (step st ph inputs) as [s1 ph1 in1| |]; [apply IH|..]; exact Hs.
Qed.

(** X6: [main] can only end with the day limit reached (time up, or the goal
    met just at the limit) after at least 10 menu choices: each of the 10
    days ends only after at least one choice was read. *)
Theorem main_time_up_needs_inputs (n : nat) (inputs : list Choice) (st : GameState) :
  main n inputs = Stop (TimeUp st) \/ main n inputs = Stop (GoalAtLimit st) ->
  (10 <= length inputs)%nat.
Proof.
  intros H.
  pose proof (run_inputs (length inputs) n initial_state OuterTest inputs) as Hi.
  pose proof (run_ok 10 n initial_state OuterTest inputs) as Hl.
  destruct (main_cases n inputs) as [E|(s & e & _ & E)];
    [|destruct H as [H|H]; rewrite E in H; discriminate].
  rewrite E in H.
  destruct H as [H|H]; rewrite H in Hi, Hl; cbn in Hi, Hl;
    (assert (day st - 1 <= Z.of_nat (length inputs)) by (apply Hi; cbn; lia));
    (assert (day st = 11) by (apply Hl; cbn; lia)); lia.
Qed.

(** X7: [interact] never changes the day, the day limit, the action budget,
    the player's position or the goal, and of the fields it changes at most
    the plot under the player. *)
Theorem interact_frame (st st' : GameState) (i : nat) (m : InteractMsg) :
  interact st i = Ok (st', m) ->
  day st' = day st /\ day_limit st' = day_limit st /\
  actions_per_day st' = actions_per_day st /\ player_pos st' = player_pos st /\
  goal st' = goal st /\
  (forall pos, pos <> player_pos st -> fields st' !! pos = fields st !! pos).
Proof.
  intros H. split; [|split; [|split; [|split; [|split]]]];
    try apply (interact_frame_core st st' i m H).
  intros pos Hne. unfold interact in H.
  destruct (fields st !! player_pos st) as [plot|].
  - destruct (crop plot) as [c|].
    + destruct (is_ready plot (day st)).
      * unfold harvest in H. destruct (crop plot); cbn in H; [|discriminate].
        injection H as <- _. cbn. apply lookup_insert_ne. congruence.
      * destruct (planted_day plot); [injection H as <- _; reflexivity|discriminate].
    + unfold plant_crop in H. destruct (nth_error CROPS i); cbn in H; [|discriminate].
      injection H as <- _. cbn. apply lookup_insert_ne. congruence.
  - destruct (decide _); [|injection H as <- _; reflexivity].
    unfold feed_animals in H. destruct (_ <=? 0); [injection H as <- _; reflexivity|].
    destruct (feed_loop _ _ _) as [[[x y] z]|e1]; cbn in H; [|discriminate].
    injection H as <- _. reflexivity.
Qed.

Lemma iter_end_day (k : nat) (st : GameState) :
  day (Nat.iter k end_day st) = day st + Z.of_nat k /\
  day_limit (Nat.iter k end_day st) = day_limit st /\
  player_pos (Nat.iter k end_day st) = player_pos st /\
  fields (Nat.iter k end_day st) = fields st /\
  inventory (Nat.iter k end_day st) = inventory st /\
  goal (Nat.iter k end_day st) = goal st /\
  livestock (Nat.iter k end_day st) =
    map (fun a => mkLivestock (livestock_type a) (hunger a + Z.of_nat k)) (livestock st).
Proof.
  induction k as [|k IH].
  - cbn. repeat split; try lia.
    induction (livestock st) as [|a l IHl]; [reflexivity|].
    cbn. rewrite <- IHl, Z.add_0_r. destruct a. reflexivity.
  - rewrite Nat.iter_succ. destruct IH as (Hd & Hl & Hp & Hf & Hi & Hg & Hs).
    cbn. rewrite Hd, Hl, Hp, Hf, Hi, Hg, Hs. repeat split; try lia.
    rewrite map_map. apply map_ext. intros a. unfold pass_day. cbn. f_equal. lia.
Qed.

(** X8: planting, growing and harvesting compose: [interact] on an empty plot
    with the index of crop [c] plants it; after each of the next
    [grow_days c - 1] days, [interact] there only reports the days left, one
    fewer each day; after [grow_days c] days it harvests: one [c] is credited,
    nothing else in the inventory changes, and the plot is empty again. *)
Theorem plant_grow_harvest (st : GameState) (plot : FieldPlot) (i j : nat) (c : CropType) :
  fields st !! player_pos st = Some plot -> crop plot = None ->
  nth_error CROPS i = Some c ->
  exists st1,
    interact st i = Ok (st1, Planted (crop_name c)) /\
    (forall k : nat, (0 < Z.of_nat k < grow_days c) ->
       interact (Nat.iter k end_day st1) j =
         Ok (Nat.iter k end_day st1, StillGrowing (crop_name c) (grow_days c - Z.of_nat k))) /\
    exists st2,
      interact (Nat.iter (Z.to_nat (grow_days c)) end_day st1) j =
        Ok (st2, Harvested (crop_name c)) /\
      dict_get (inventory st2) (crop_name c) 0 = dict_get (inventory st) (crop_name c) 0 + 1 /\
      (forall item, item <> crop_name c ->
         dict_get (inventory st2) item 0 = dict_get (inventory st) item 0) /\
      fields st2 !! player_pos st2 = Some empty_plot.
Proof.
  intros Hf Hc Hn.
  assert (Hg : 0 < grow_days c).
  { apply nth_error_In in Hn. cbn in Hn.
    destruct Hn as [<-|[<-|[<-|[]]]]; cbn; lia. }
  set (pl := mkFieldPlot (Some c) (Some (day st))).
  set (st1 := set_fields st (<[player_pos st := pl]> (fields st))).
  exists st1. split.
  { unfold interact. rewrite Hf, Hc. unfold plant_crop. rewrite Hn. reflexivity. }
  assert (Hf1 : forall k, fields (Nat.iter k end_day st1) !! player_pos (Nat.iter k end_day st1)
                  = Some pl).
  { intros k. destruct (iter_end_day k st1) as (_ & _ & Hp & Hfl & _).
    rewrite Hp, Hfl. cbn. apply lookup_insert_eq. }
  split.
  - intros k Hk. unfold interact. rewrite Hf1.
    destruct (iter_end_day k st1) as (Hd & _).
    unfold pl at 1. cbn [crop].
    replace (is_ready pl (day (Nat.iter k end_day st1))) with false.
    2:{ unfold is_ready, pl. cbn. rewrite Hd. cbn. symmetry. apply Z.leb_gt. lia. }
    cbn. rewrite Hd. cbn. do 3 f_equal. lia.
  - set (stg := Nat.iter (Z.to_nat (grow_days c)) end_day st1).
    destruct (iter_end_day (Z.to_nat (grow_days c)) st1) as (Hd & _ & Hp & Hfl & Hi & _).
    fold stg in Hd, Hp, Hfl, Hi.
    assert (Hr : is_ready pl (day stg) = true).
    { unfold is_ready, pl. cbn. rewrite Hd. cbn. apply Z.leb_le. lia. }
    eexists. split.
    { unfold interact. rewrite (Hf1 (Z.to_nat (grow_days c)) : fields stg !! player_pos stg = Some pl).
      cbn [pl crop]. fold pl. rewrite Hr.
      unfold harvest. reflexivity. }
    cbn. rewrite Hi, Hp, Hfl. cbn. split; [|split].
    + apply dict_get_insert_eq.
    + intros item Hne. apply dict_get_insert_ne. congruence.
    + apply lookup_insert_eq.
Qed.

(** X9: with enough feed for every unit (and no unit yielding feed),
    [feed_animals] feeds all of them, and after [k] further calls of
    [end_day] every unit has hunger exactly [k], with the units' types
    unchanged. *)
Theorem feed_then_days (st : GameState) (k : nat) :
  Forall (fun a => product (livestock_type a) <> FEED) (livestock st) ->
  Z.of_nat (length (livestock st)) <= dict_get (inventory st) FEED 0 ->
  exists st' m,
    feed_animals st = Ok (st', m) /\
    Forall (fun a => hunger a = Z.of_nat k) (livestock (Nat.iter k end_day st')) /\
    map livestock_type (livestock (Nat.iter k end_day st')) = map livestock_type (livestock st).
Proof.
  intros Hprod Hf.
  destruct (feed_animals_run st Hprod ltac:(lia)) as (inv' & Hrun & _).
  rewrite fed_count_all in Hrun by exact Hf. rewrite feed_prefix_all in Hrun.
  eexists _, _. split; [exact Hrun|].
  destruct (iter_end_day k (set_inventory (set_livestock st
              (map (fun a => fst (feed a)) (livestock st))) inv'))
    as (_ & _ & _ & _ & _ & _ & Hs).
  rewrite Hs. cbn. rewrite !map_map. split.
  - apply Forall_forall. intros a Ha. apply list_elem_of_In, in_map_iff in Ha.
    destruct Ha as (b & <- & _). cbn. lia.
  - reflexivity.
Qed.

(** X10: [goal_met] is monotone in the inventory: a state with the same goal
    and, for every goal item, at least as much in stock as a state that
    meets the goal meets it too. *)
Theorem goal_met_monotone (st st' : GameState) :
  goal st' = goal st ->
  (forall item, item ∈ dom (goal st) ->
     dict_get (inventory st) item 0 <= dict_get (inventory st') item 0) ->
  goal_met st = true -> goal_met st' = true.
Proof.
  intros Hg Hle Hm. rewrite goal_met_forall in *. rewrite Hg.
  intros item amount Ha.
  assert (Hd : item ∈ dom (goal st)) by (apply elem_of_dom; eauto).
  specialize (Hle item Hd). specialize (Hm item amount Ha). lia.
Qed.

Lemma render_map_lookup (st : GameState) (x y : Z) :
  0 <= x < GRID_WIDTH -> 0 <= y < GRID_HEIGHT ->
  (render_map st !! Z.to_nat y) ≫= (fun row => row !! Z.to_nat x) =
    Some (render_cell st (x, y)).
Proof.
  intros Hx Hy. unfold render_map.
  rewrite list_lookup_fmap, lookup_seqZ_lt by lia. cbn.
  rewrite list_lookup_fmap, lookup_seqZ_lt by lia. cbn.
  rewrite !Z.add_0_l, !Z2Nat.id by lia. reflexivity.
Qed.

Lemma render_map_shape (st : GameState) :
  length (render_map st) = 6%nat /\ Forall (fun row => length row = 8%nat) (render_map st).
Proof.
  unfold render_map. rewrite length_fmap, length_seqZ. split; [reflexivity|].
  apply Forall_fmap, Forall_forall. intros y _. cbn.
  rewrite length_fmap, length_seqZ. reflexivity.
Qed.

(** X11: on every state [main] reaches, [render_map] prints 6 rows of 8
    cells, the cell in row [y] and column [x] being the one for position
    [(x, y)]; the player's cell, which lies in the grid, reads "@"; any
    other position reads "F" exactly when it is one of the field positions
    and "B" exactly when it is the barn. *)
Theorem render_map_layout (n : nat) (inputs : list Choice) (st : GameState) :
  reached (main n inputs) = Some st ->
  length (render_map st) = 6%nat /\
  Forall (fun row => length row = 8%nat) (render_map st) /\
  (forall x y, 0 <= x < GRID_WIDTH -> 0 <= y < GRID_HEIGHT ->
     (render_map st !! Z.to_nat y) ≫= (fun row => row !! Z.to_nat x) =
       Some (render_cell st (x, y))) /\
  in_grid (player_pos st) = true /\
  render_cell st (player_pos st) = "@" /\
  (forall pos, pos <> player_pos st ->
     (render_cell st pos = "F" <-> In pos FIELD_POSITIONS) /\
     (render_cell st pos = "B" <-> pos = BARN_POSITION)).
Proof.
  intros H. destruct (main_wf n inputs st H) as (_ & _ & Hg & Hd & _).
  destruct (render_map_shape st) as [Hl Hr].
  split; [exact Hl|]. split; [exact Hr|]. split; [apply render_map_lookup|].
  split; [exact Hg|]. split.
  { unfold render_cell. destruct (decide _); [reflexivity|contradiction]. }
  intros pos Hne. unfold render_cell.
  destruct (decide (pos = player_pos st)) as [|_]; [contradiction|].
  rewrite Hd. destruct (decide (pos ∈ (list_to_set FIELD_POSITIONS : gset (Z * Z))))
    as [Hin|Hin]; rewrite elem_of_list_to_set, list_elem_of_In in Hin.
  - split; split; intros; try easy.
    subst pos. cbn in Hin. unfold BARN_POSITION in Hin.
    repeat (destruct Hin as [Hin|Hin]; [discriminate|]). contradiction.
  - destruct (decide (pos = BARN_POSITION)); split; split; intros; try easy.
Qed.

(** X12: within the day, the status choice (on a state whose plots are
    consistent) costs no action and changes nothing, and the end-of-actions
    choice sets the remaining actions to 0 without ending the day; in both
    cases the goal is tested first.  The next step after the actions reach 0
    ends the day without consuming any input. *)
Theorem step_status_end (st : GameState) (al : Z) (rest : list Choice) :
  0 < al ->
  map_Forall (fun _ p => plot_ok (day st) p) (fields st) ->
  step st (InnerTest al) (CStatus :: rest) =
    (if goal_met st then Stop (GoalReached st) else Continue st (InnerTest al) rest) /\
  step st (InnerTest al) (CEndActions :: rest) =
    (if goal_met st then Stop (GoalReached st) else Continue st (InnerTest 0) rest) /\
  step st (InnerTest 0) rest = Continue (end_day st) OuterTest rest.
Proof.
  intros Hal Hp. destruct (print_status_no_raise st Hp) as [l Hl].
  cbn [step]. replace (0 <? al) with true by (symmetry; apply Z.ltb_lt; exact Hal).
  cbn [do_choice]. rewrite Hl. cbn. auto.
Qed.

(** X13: with no livestock, [feed_animals] leaves the state unchanged and
    reports either the lack of feed (stock at most 0) or that 0 units were
    fed (positive stock). *)
Theorem feed_animals_no_livestock (st : GameState) :
  livestock st = [] ->
  feed_animals st =
    Ok (st, if dict_get (inventory st) FEED 0 <=? 0 then NotEnoughFeed else FedCount 0).
Proof.
  intros H. unfold feed_animals.
  destruct (_ <=? 0); [reflexivity|]. rewrite H. cbn. rewrite <- H.
  destruct st. reflexivity.
Qed.

(** X14: a move that is not blocked by the border is undone by the move in
    the opposite direction: from inside the grid, if the player's position
    changes, the opposite key brings the player back. *)
Theorem move_player_opposite (st : GameState) (k : Key) :
  in_grid (player_pos st) = true ->
  player_pos (move_player st k) <> player_pos st ->
  player_pos (move_player (move_player st k) (opposite k)) = player_pos st.
Proof.
  intros Hin Hne. rewrite !move_player_pos in *.
  destruct (player_pos st) as [x y]. unfold in_grid in Hin. cbn in *.
  rewrite !andb_true_iff, !Z.leb_le in Hin.
  unfold clamp, GRID_WIDTH, GRID_HEIGHT in *.
  destruct k; cbn in *;
    repeat match goal with
           | |- context [if ?b then _ else _] => destruct b eqn:?
           | H : context [if ?b then _ else _] |- _ => destruct b eqn:?
           end;
    rewrite ?Z.ltb_lt, ?Z.ltb_ge in *; try (f_equal; lia); exfalso; apply Hne; f_equal; lia.
Qed.


(** ** Instances of the further properties *)

Lemma main_never_crashes_witness :
  Forall valid_choice demo_inputs /\ forall e, main 30 demo_inputs <> Stop (Crash e).
Proof.
  assert (H : Forall valid_choice demo_inputs) by (repeat constructor).
  split; [exact H|]. exact (main_never_crashes 30 demo_inputs H).
Defined.

Lemma main_plots_consistent_witness :
  exists st, reached (main 30 demo_inputs) = Some st /\
    fields st !! (2, 1) = Some (mkFieldPlot (Some carrot) (Some 2)) /\
    (Some carrot = None <-> Some 2 = None) /\
    (forall d, Some 2 = Some d -> d <= day st).
Proof.
  destruct (reached (main 30 demo_inputs)) as [st|] eqn:E;
    [|vm_compute in E; discriminate].
  assert (Hf : fields st !! (2, 1) = Some (mkFieldPlot (Some carrot) (Some 2))).
  { vm_compute in E. injection E as <-. vm_compute. reflexivity. }
  exists st. split; [reflexivity|]. split; [exact Hf|].
  exact (main_plots_consistent 30 demo_inputs st E (2, 1) _ Hf).
Defined.

Lemma main_inventory_nonneg_witness :
  exists st, reached (main 30 demo_inputs) = Some st /\
    0 <= dict_get (inventory st) "にんじん" 0.
Proof.
  destruct (reached (main 30 demo_inputs)) as [st|] eqn:E;
    [|vm_compute in E; discriminate].
  exists st. split; [reflexivity|].
  exact (main_inventory_nonneg 30 demo_inputs st E "にんじん").
Defined.

Lemma main_layout_fixed_witness :
  exists st, reached (main 30 demo_inputs) = Some st /\
    in_grid (player_pos st) = true /\
    dom (fields st) = list_to_set FIELD_POSITIONS /\
    map livestock_type (livestock st) = [chicken; chicken; cow] /\
    Forall (fun a => 0 <= hunger a) (livestock st).
Proof.
  destruct (reached (main 30 demo_inputs)) as [st|] eqn:E;
    [|vm_compute in E; discriminate].
  exists st. split; [reflexivity|].
  exact (main_layout_fixed 30 demo_inputs st E).
Defined.

Lemma main_time_up_needs_inputs_witness :
  exists st, main 100 ten_days = Stop (TimeUp st) /\ (10 <= length ten_days)%nat.
Proof.
  destruct (main 100 ten_days) as [st0 ph0 l0|[st|st|st|e]|st0 al0] eqn:E;
    try (vm_compute in E; discriminate).
  exists st. split; [reflexivity|].
  apply (main_time_up_needs_inputs 100 ten_days st). left. exact E.
Defined.

Lemma interact_frame_witness :
  exists st' m, interact field_state 0 = Ok (st', m) /\
    day st' = day field_state /\ day_limit st' = day_limit field_state /\
    actions_per_day st' = actions_per_day field_state /\
    player_pos st' = player_pos field_state /\ goal st' = goal field_state /\
    (forall pos, pos <> player_pos field_state ->
       fields st' !! pos = fields field_state !! pos).
Proof.
  destruct (interact field_state 0) as [[st' m]|e] eqn:E;
    [|vm_compute in E; discriminate].
  exists st', m. split; [reflexivity|].
  exact (interact_frame field_state st' 0 m E).
Defined.

Lemma plant_grow_harvest_witness :
  exists st1,
    interact field_state 0 = Ok (st1, Planted (crop_name carrot)) /\
    interact (Nat.iter 1 end_day st1) 1 =
      Ok (Nat.iter 1 end_day st1, StillGrowing (crop_name carrot) 1) /\
    exists st2,
      interact (Nat.iter 2 end_day st1) 1 = Ok (st2, Harvested (crop_name carrot)) /\
      dict_get (inventory st2) (crop_name carrot) 0 =
        dict_get (inventory field_state) (crop_name carrot) 0 + 1.
Proof.
  assert (Hf : fields field_state !! player_pos field_state = Some empty_plot)
    by (vm_compute; reflexivity).
  destruct (plant_grow_harvest field_state empty_plot 0 1 carrot Hf eq_refl eq_refl)
    as (st1 & Hp & Hg & st2 & Hh & Hi & _).
  exists st1. split; [exact Hp|]. split.
  - exact (Hg 1%nat ltac:(cbn; lia)).
  - exists st2. split; [exact Hh|exact Hi].
Defined.

Lemma feed_then_days_witness :
  exists st' m,
    feed_animals initial_state = Ok (st', m) /\
    Forall (fun a => hunger a = 2) (livestock (Nat.iter 2 end_day st')) /\
    map livestock_type (livestock (Nat.iter 2 end_day st')) = [chicken; chicken; cow].
Proof.
  destruct (feed_then_days initial_state 2 initial_products_not_feed
              ltac:(vm_compute; discriminate)) as (st' & m & H1 & H2 & H3).
  exists st', m. split; [exact H1|]. split; [exact H2|exact H3].
Defined.

Lemma goal_met_monotone_witness :
  goal_met (set_inventory initial_state
    (list_to_map [("にんじん", 5); ("じゃがいも", 3); ("たまご", 4); ("ミルク", 2)])) = true /\
  goal_met (set_inventory initial_state
    (list_to_map [("にんじん", 7); ("じゃがいも", 3); ("たまご", 4); ("ミルク", 9);
                  ("エサ", 1)])) = true.
Proof.
  assert (Hm : goal_met (set_inventory initial_state
    (list_to_map [("にんじん", 5); ("じゃがいも", 3); ("たまご", 4); ("ミルク", 2)])) = true)
    by (vm_compute; reflexivity).
  split; [exact Hm|].
  refine (goal_met_monotone _ _ eq_refl _ Hm).
  intros item Hi. cbn [goal set_inventory initial_state] in Hi.
  rewrite dom_list_to_map_L, elem_of_list_to_set, list_elem_of_In in Hi. cbn in Hi.
  repeat (destruct Hi as [<-|Hi]; [vm_compute; discriminate|]). contradiction.
Defined.

Lemma render_map_layout_witness :
  exists st, reached (main 30 demo_inputs) = Some st /\
    length (render_map st) = 6%nat /\
    render_cell st (player_pos st) = "@" /\
    (render_cell st (3, 1) = "F" <-> In (3, 1) FIELD_POSITIONS).
Proof.
  destruct (reached (main 30 demo_inputs)) as [st|] eqn:E;
    [|vm_compute in E; discriminate].
  assert (Hp : (3, 1) <> player_pos st).
  { vm_compute in E. injection E as <-. vm_compute. congruence. }
  destruct (render_map_layout 30 demo_inputs st E) as (Hl & _ & _ & _ & Hc & Ho).
  exists st. split; [reflexivity|]. split; [exact Hl|]. split; [exact Hc|].
  exact (proj1 (Ho (3, 1) Hp)).
Defined.

Lemma step_status_end_witness :
  step initial_state (InnerTest 3) [CStatus] = Continue initial_state (InnerTest 3) [] /\
  step initial_state (InnerTest 3) [CEndActions] = Continue initial_state (InnerTest 0) [] /\
  step initial_state (InnerTest 0) [] = Continue (end_day initial_state) OuterTest [].
Proof.
  destruct wf_initial as [Hp _].
  destruct (step_status_end initial_state 3 [] ltac:(lia) Hp) as (H1 & H2 & H3).
  assert (Hg : goal_met initial_state = false) by (vm_compute; reflexivity).
  rewrite Hg in H1, H2. auto.
Defined.

Lemma feed_animals_no_livestock_witness :
  feed_animals (set_livestock initial_state []) = Ok (set_livestock initial_state [], FedCount 0).
Proof.
  rewrite (feed_animals_no_livestock (set_livestock initial_state []) eq_refl).
  vm_compute. reflexivity.
Defined.

Lemma move_player_opposite_witness :
  player_pos (move_player (move_player field_state KeyD) KeyA) = (2, 1).
Proof.
  exact (move_player_opposite field_state KeyD eq_refl ltac:(vm_compute; congruence)).
Defined.
